(** * Chip orchestration (HyperOrchestrator v5.1): guardrail core

    A shallow embedding of [chip-orchestration.ts]: the path sandbox, the
    forward-only lifecycle, sub-agent session reuse, the activity and
    deliverable recorder and the end-state checklist.  The module talks to
    the Mission Control HTTP API; here the API is an in-memory store whose
    requests can be made to fail, and every request, console line and store
    change is recorded in an explicit world that the orchestrator threads
    through its calls. *)

From Stdlib Require Import String Ascii List ZArith Bool Lia DecimalString.
Import ListNotations.
Local Open Scope string_scope.
Local Open Scope list_scope.

(** ** JavaScript string helpers *)

(** [s.startsWith(p)] *)
Definition startsWith (s p : string) : bool := String.prefix p s.

(** [a || b] on strings: the empty string is falsy. *)
Definition str_or (a b : string) : string :=
  match a with EmptyString => b | _ => a end.

(** [process.env.X || dflt]: an unset variable is [undefined]. *)
Definition env_or (v : option string) (dflt : string) : string :=
  match v with Some s => str_or s dflt | None => dflt end.

(** Truthiness of an optional string argument ([undefined] and [''] are falsy). *)
Definition truthy (v : option string) : bool :=
  match v with Some (String _ _) => true | _ => false end.

(** ECMAScript GetSubstitution for a pattern without capture groups: in the
    replacement text [$$] is a dollar sign, [$&] the match, [$`] the text
    before the match and [$'] the text after it; any other character,
    a dollar sign included, stands for itself. *)
Fixpoint getSubstitution (matched before after repl : string) : string :=
  match repl with
  | EmptyString => EmptyString
  | String c rest =>
      if Ascii.eqb c "$" then
        match rest with
        | String d rest' =>
            if Ascii.eqb d "$" then String "$" (getSubstitution matched before after rest')
            else if Ascii.eqb d "&" then matched ++ getSubstitution matched before after rest'
            else if Ascii.eqb d "`" then before ++ getSubstitution matched before after rest'
            else if Ascii.eqb d "'" then after ++ getSubstitution matched before after rest'
            else String c (String d (getSubstitution matched before after rest'))
        | EmptyString => String c EmptyString
        end
      else String c (getSubstitution matched before after rest)
  end.

(** A replacement text without a dollar sign is inserted as it is. *)
Fixpoint no_dollar (s : string) : bool :=
  match s with
  | EmptyString => true
  | String c s' => negb (Ascii.eqb c "$") && no_dollar s'
  end.

(** [s.replace(/^~/, repl)] *)
Definition replaceLeadingTilde (s repl : string) : string :=
  match s with
  | String c rest =>
      if Ascii.eqb c "~" then getSubstitution "~" "" rest repl ++ rest else s
  | EmptyString => s
  end.

(** ** Configuration *)

(** What the module reads from its surroundings when it is loaded:
    two environment variables and the value of [getProjectsPath()] from
    [./config], which is not part of the sources at hand and is taken as
    given. *)
Record Env := {
  HOME : option string;
  MISSION_CONTROL_PROJECTS_BASE : option string;
  projectsPath : string
}.

(** The fixed lifecycle order. *)
Definition STATUS_ORDER : list string :=
  ["inbox"; "assigned"; "in_progress"; "testing"; "review"; "done"].

(** [Array.prototype.indexOf] on strings: [-1] when absent. *)
Fixpoint indexOf (l : list string) (x : string) : Z :=
  match l with
  | [] => (-1)%Z
  | y :: l' =>
      if String.eqb y x then 0%Z
      else let i := indexOf l' x in
           if (i =? -1)%Z then (-1)%Z else (i + 1)%Z
  end.

Definition isValidTransition (from to : string) : bool :=
  let fromIndex := indexOf STATUS_ORDER from in
  let toIndex := indexOf STATUS_ORDER to in
  if ((fromIndex =? -1) || (toIndex =? -1))%Z then false
  else (toIndex >? fromIndex)%Z.

Section Sandbox.
Variable env : Env.

Definition PROJECTS_BASE : string :=
  env_or (MISSION_CONTROL_PROJECTS_BASE env) (projectsPath env).

Definition homeDir : string := env_or (HOME env) "/tmp".

(** [PROJECTS_BASE.replace(/^~/, process.env.HOME || '/tmp')] *)
Definition resolvedBase : string := replaceLeadingTilde PROJECTS_BASE homeDir.

Definition safePath (candidate taskId : string) : string :=
  let resolved := replaceLeadingTilde candidate homeDir in
  let base := resolvedBase in
  if startsWith resolved base then resolved
  else base ++ "/" ++ taskId ++ "/".
End Sandbox.

(** ** Entities of the task store *)

(** JSON values that occur in activity metadata. *)
Inductive JsonValue :=
| JString (s : string)
| JBool (b : bool)
| JUndefined.

Definition Metadata := list (string * JsonValue).

Definition of_optional (v : option string) : JsonValue :=
  match v with Some s => JString s | None => JUndefined end.

Module Task.
Record t := {
  id : string;
  status : string;
  assigned_agent_id : option string;
  metadata : list (string * string)
}.
Definition with_status (s : string) (x : t) : t :=
  {| id := id x; status := s;
     assigned_agent_id := assigned_agent_id x; metadata := metadata x |}.
End Task.

Module Session.
Record t := {
  id : string;
  agent_id : option string;
  openclaw_session_id : string;
  session_type : string;
  task_id : string;
  status : string;
  ended_at : option string;
  created_at : string;
  agent_name : option string
}.
Definition finish (st : string) (at_ : string) (x : t) : t :=
  {| id := id x; agent_id := agent_id x;
     openclaw_session_id := openclaw_session_id x;
     session_type := session_type x; task_id := task_id x;
     status := st; ended_at := Some at_;
     created_at := created_at x; agent_name := agent_name x |}.
End Session.

Module Activity.
Record t := {
  id : string;
  task_id : string;
  activity_type : string;
  message : string;
  agent_id : option string;
  metadata : option Metadata;
  created_at : string
}.
End Activity.

Module Deliverable.
Record t := {
  id : string;
  task_id : string;
  deliverable_type : string;
  title : string;
  path : option string;
  description : option string
}.
End Deliverable.

(** ** Requests, responses, errors *)

Inductive Method := GET | POST | PATCH | DELETE.

Definition method_name (m : Method) : string :=
  match m with
  | GET => "GET" | POST => "POST" | PATCH => "PATCH" | DELETE => "DELETE"
  end.

(** The JSON bodies the module sends. *)
Inductive Body :=
| StatusBody (status : string) (updated_by_agent_id : option string)
| SubagentBody (openclaw_session_id : string) (agent_name : option string)
| ActivityBody (activity_type message : string) (agent_id : option string)
    (metadata : option Metadata)
| DeliverableBody (deliverable_type title : string)
    (path description : option string)
| SessionBody (status ended_at : string).

Record Request := {
  req_method : Method;
  req_path : string;
  req_body : option Body
}.

Inductive Response (T : Type) :=
| Ok200 (json : T)
| NotOk (status : nat) (text : string).
Arguments Ok200 {T} json.
Arguments NotOk {T} status text.

Definition nat_to_string (n : nat) : string :=
  NilZero.string_of_uint (Nat.to_uint n).

(** Everything the module throws is a JavaScript [Error] with a message;
    the constructors keep apart the kinds of failure, [error_message]
    gives the text. *)
Inductive Error :=
| HttpError (m : Method) (path : string) (status : nat) (text : string)
| InvalidTransition (from to : string)
| PreconditionFailed
| CannotStartWork (status : string).

Definition error_message (e : Error) : string :=
  match e with
  | HttpError m path status text =>
      method_name m ++ " " ++ path ++ " failed (" ++ nat_to_string status
        ++ "): " ++ text
  | InvalidTransition from to =>
      "Invalid status transition: " ++ from ++ " → " ++ to
        ++ ". Only forward transitions allowed."
  | PreconditionFailed => "Cannot move to review: no deliverables registered."
  | CannotStartWork status =>
      "Cannot start work: task is in '" ++ status ++ "', expected 'assigned'."
  end.

Inductive ConsoleLine :=
| ConsoleLog (msg : string)
| ConsoleWarn (msg : string)
| ConsoleError (msg : string) (err : Error).

(** ** The task store behind the HTTP API *)

Record Store := {
  tasks : list Task.t;
  sessions : list Session.t;
  activities : list Activity.t;
  deliverables : list Deliverable.t;
  masters : list string;
  dedupOnPost : bool;
  clock : string;
  next_id : nat
}.

Definition set_tasks (l : list Task.t) (s : Store) : Store :=
  {| tasks := l; sessions := sessions s; activities := activities s;
     deliverables := deliverables s; masters := masters s;
     dedupOnPost := dedupOnPost s; clock := clock s; next_id := next_id s |}.

Definition set_sessions (l : list Session.t) (n : nat) (s : Store) : Store :=
  {| tasks := tasks s; sessions := l; activities := activities s;
     deliverables := deliverables s; masters := masters s;
     dedupOnPost := dedupOnPost s; clock := clock s; next_id := n |}.

Definition set_activities (l : list Activity.t) (n : nat) (s : Store) : Store :=
  {| tasks := tasks s; sessions := sessions s; activities := l;
     deliverables := deliverables s; masters := masters s;
     dedupOnPost := dedupOnPost s; clock := clock s; next_id := n |}.

Definition set_deliverables (l : list Deliverable.t) (n : nat) (s : Store) : Store :=
  {| tasks := tasks s; sessions := sessions s; activities := activities s;
     deliverables := l; masters := masters s;
     dedupOnPost := dedupOnPost s; clock := clock s; next_id := n |}.

Definition is_active (s : Session.t) : bool := Session.status s =? "active".

Definition sessions_of (taskId : string) (st : Store) : list Session.t :=
  filter (fun s => Session.task_id s =? taskId) (sessions st).

Definition active_sessions_of (taskId : string) (st : Store) : list Session.t :=
  filter is_active (sessions_of taskId st).

Definition activities_of (taskId : string) (st : Store) : list Activity.t :=
  filter (fun a => Activity.task_id a =? taskId) (activities st).

Definition deliverables_of (taskId : string) (st : Store) : list Deliverable.t :=
  filter (fun d => Deliverable.task_id d =? taskId) (deliverables st).

Definition find_task (taskId : string) (st : Store) : option Task.t :=
  find (fun t => Task.id t =? taskId) (tasks st).

Definition fresh_id (prefix : string) (st : Store) : string :=
  prefix ++ nat_to_string (next_id st).

Definition is_master (agent : option string) (st : Store) : bool :=
  match agent with
  | Some a => existsb (String.eqb a) (masters st)
  | None => false
  end.

(** A move to a status that comes earlier in the lifecycle than the
    current one. *)
Definition is_backward (current target : string) : bool :=
  let c := indexOf STATUS_ORDER current in
  let t := indexOf STATUS_ORDER target in
  (negb (c =? -1) && negb (t =? -1) && (t <? c))%Z.

(** *** Routes

    The routes are code of the repository that is not among the sources at
    hand; each is written after the HTTP contract of the specification and
    the guardrails the workflow guide lists as enforced at API level. *)

(** Modelled from the spec: [GET /tasks/{id}] answers the task, and a
    missing task is a 404. *)
Definition route_get_task (taskId : string) (st : Store) : Response Task.t :=
  match find_task taskId st with
  | Some t => Ok200 t
  | None => NotOk 404 "Task not found"
  end.

(** Modelled from the spec: [PATCH /tasks/{id}] with [{status,
    updated_by_agent_id?}] answers the updated task; the store rejects a
    backward transition with a 400 and a transition to [done] that no
    master agent asks for. *)
Definition route_patch_task (taskId status : string) (agent : option string)
    (st : Store) : Response Task.t * Store :=
  match find_task taskId st with
  | None => (NotOk 404 "Task not found", st)
  | Some t =>
      if is_backward (Task.status t) status then
        (NotOk 400 "Backward status transition", st)
      else if (status =? "done") && negb (is_master agent st) then
        (NotOk 403 "Only the master agent can approve", st)
      else
        let t' := Task.with_status status t in
        (Ok200 t',
         set_tasks
           (map (fun x => if Task.id x =? taskId then Task.with_status status x else x)
                (tasks st))
           st)
  end.

(** Modelled from the spec: [GET /tasks/{id}/subagent] answers the sessions
    of the task, the newest first. *)
Definition route_get_subagent (taskId : string) (st : Store)
    : Response (list Session.t) :=
  Ok200 (sessions_of taskId st).

(** Modelled from the spec: [POST /tasks/{id}/subagent] creates an active
    session for the task.  The contract says the store should answer an
    existing active session instead; whether it does is the store's
    [dedupOnPost] switch, so that nothing proved below leans on it. *)
Definition route_post_subagent (taskId sessionId : string)
    (agentName : option string) (st : Store) : Response Session.t * Store :=
  match (if dedupOnPost st then active_sessions_of taskId st else []) with
  | existing :: _ => (Ok200 existing, st)
  | [] =>
      let s := {| Session.id := fresh_id "session-" st;
                  Session.agent_id := None;
                  Session.openclaw_session_id := sessionId;
                  Session.session_type := "subagent";
                  Session.task_id := taskId;
                  Session.status := "active";
                  Session.ended_at := None;
                  Session.created_at := clock st;
                  Session.agent_name := agentName |} in
      (Ok200 s, set_sessions (s :: sessions st) (S (next_id st)) st)
  end.

(** Modelled from the spec: [GET /tasks/{id}/activities] answers the
    activities of the task. *)
Definition route_get_activities (taskId : string) (st : Store)
    : Response (list Activity.t) :=
  Ok200 (activities_of taskId st).

(** Modelled from the spec: [POST /tasks/{id}/activities] appends an
    activity; activities are never changed or removed. *)
Definition route_post_activity (taskId activityType message : string)
    (agentId : option string) (meta : option Metadata) (st : Store)
    : Response Activity.t * Store :=
  let a := {| Activity.id := fresh_id "activity-" st;
              Activity.task_id := taskId;
              Activity.activity_type := activityType;
              Activity.message := message;
              Activity.agent_id := agentId;
              Activity.metadata := meta;
              Activity.created_at := clock st |} in
  (Ok200 a, set_activities (activities st ++ [a]) (S (next_id st)) st).

(** Modelled from the spec: [GET /tasks/{id}/deliverables] answers the
    deliverables registered for the task. *)
Definition route_get_deliverables (taskId : string) (st : Store)
    : Response (list Deliverable.t) :=
  Ok200 (deliverables_of taskId st).

(** Modelled from the spec: [POST /tasks/{id}/deliverables] registers a
    deliverable. *)
Definition route_post_deliverable (taskId deliverableType title : string)
    (path description : option string) (st : Store)
    : Response Deliverable.t * Store :=
  let d := {| Deliverable.id := fresh_id "deliverable-" st;
              Deliverable.task_id := taskId;
              Deliverable.deliverable_type := deliverableType;
              Deliverable.title := title;
              Deliverable.path := path;
              Deliverable.description := description |} in
  (Ok200 d, set_deliverables (deliverables st ++ [d]) (S (next_id st)) st).

Definition names_session (sessionId : string) (s : Session.t) : bool :=
  Session.openclaw_session_id s =? sessionId.

(** Modelled from the spec: [PATCH /openclaw-sessions/{id}] with [{status,
    ended_at}] completes the session the id names; the id is the one the
    module hands around, the [openclaw_session_id].  A session that does not
    exist is a 404. *)
Definition route_patch_session (sessionId status endedAt : string) (st : Store)
    : Response unit * Store :=
  if existsb (names_session sessionId) (sessions st) then
    (Ok200 tt,
     set_sessions
       (map (fun s => if names_session sessionId s
                      then Session.finish status endedAt s else s)
            (sessions st))
       (next_id st) st)
  else (NotOk 404 "Session not found", st).

(** Modelled from the spec: [DELETE /openclaw-sessions/{id}] removes the
    session. *)
Definition route_delete_session (sessionId : string) (st : Store)
    : Response unit * Store :=
  if existsb (names_session sessionId) (sessions st) then
    (Ok200 tt,
     set_sessions (filter (fun s => negb (names_session sessionId s)) (sessions st))
                  (next_id st) st)
  else (NotOk 404 "Session not found", st).

(** ** The world the orchestrator runs in *)

(** [faults] is the schedule of store failures: each request takes the head
    of the list, and [true] makes the store answer that request with a 500
    and do nothing.  [requests] and [console] record, oldest first, what the
    module sent and what it wrote to the console. *)
Record World := {
  store : Store;
  faults : list bool;
  requests : list Request;
  console : list ConsoleLine;
  now : string
}.

Inductive Outcome (A : Type) :=
| Returned (a : A)
| Thrown (e : Error).
Arguments Returned {A} a.
Arguments Thrown {A} e.

(** An asynchronous function: it runs in a world, leaves a world behind and
    either returns or throws. *)
Definition Async (A : Type) : Type := World -> Outcome A * World.

Definition ret {A} (a : A) : Async A := fun w => (Returned a, w).

Definition throw {A} (e : Error) : Async A := fun w => (Thrown e, w).

Definition bind {A B} (c : Async A) (k : A -> Async B) : Async B :=
  fun w =>
    match c w with
    | (Returned a, w') => k a w'
    | (Thrown e, w') => (Thrown e, w')
    end.

Notation "x <- c ;; k" := (bind c (fun x => k))
  (at level 61, c at next level, right associativity).
Notation "c ;;; k" := (bind c (fun _ => k))
  (at level 61, right associativity).

(** [try { ... } catch (error) { ... }] *)
Definition try_catch {A} (c : Async A) (handler : Error -> Async A) : Async A :=
  fun w =>
    match c w with
    | (Returned a, w') => (Returned a, w')
    | (Thrown e, w') => handler e w'
    end.

(** [await Promise.all(ps)] for promises whose values are not used.  The
    calls that make the promises have all been made before the await, so
    every one of them runs, in the order written, whether or not another
    fails; the await throws the first failure. *)
Fixpoint Promise_all (ps : list (Async unit)) : Async unit :=
  match ps with
  | [] => ret tt
  | p :: ps' =>
      fun w =>
        match p w with
        | (Returned _, w1) => Promise_all ps' w1
        | (Thrown e, w1) => (Thrown e, snd (Promise_all ps' w1))
        end
  end.

Definition console_write (l : ConsoleLine) : Async unit :=
  fun w =>
    (Returned tt,
     {| store := store w; faults := faults w; requests := requests w;
        console := console w ++ [l]; now := now w |}).

(** [new Date().toISOString()] *)
Definition toISOString : Async string := fun w => (Returned (now w), w).

(** The world after the store has dealt with request [r] and is left as
    [st]: one entry of the failure schedule is used up and the request is
    on record. *)
Definition answered (w : World) (st : Store) (r : Request) : World :=
  {| store := st; faults := tl (faults w); requests := requests w ++ [r];
     console := console w; now := now w |}.

(** [fetch]: the request is recorded, and the store answers it unless the
    failure schedule says otherwise. *)
Definition fetch {T} (m : Method) (path : string) (body : option Body)
    (route : Store -> Response T * Store) : World -> Response T * World :=
  fun w =>
    let r := {| req_method := m; req_path := path; req_body := body |} in
    match faults w with
    | true :: _ => (NotOk 500 "Internal Server Error", answered w (store w) r)
    | _ => let (resp, st') := route (store w) in (resp, answered w st' r)
    end.

Definition api {T} (m : Method) (path : string) (body : option Body)
    (route : Store -> Response T * Store) : Async T :=
  fun w =>
    match fetch m path body route w with
    | (Ok200 v, w') => (Returned v, w')
    | (NotOk status text, w') => (Thrown (HttpError m path status text), w')
    end.

Definition apiGet {T} (path : string) (route : Store -> Response T) : Async T :=
  api GET path None (fun st => (route st, st)).

Definition apiPost {T} (path : string) (body : Body)
    (route : Store -> Response T * Store) : Async T :=
  api POST path (Some body) route.

Definition apiPatch {T} (path : string) (body : Body)
    (route : Store -> Response T * Store) : Async T :=
  api PATCH path (Some body) route.

Definition apiDelete (path : string) (route : Store -> Response unit * Store)
    : Async unit :=
  api DELETE path None route.

(** ** Parameters and results of the exported functions *)

Record PreflightResult := {
  pf_task : Task.t;
  pf_status : string;
  outputDir : string;
  existingSessions : list Session.t;
  hasActiveSession : bool;
  canStart : bool;
  reason : option string
}.

Module SpawnSubAgentParams.
Record t := {
  taskId : string;
  sessionId : string;
  agentName : string;
  description : option string
}.
End SpawnSubAgentParams.

Module LogActivityParams.
Record t := {
  taskId : string;
  activityType : string;
  message : string;
  agentId : option string;
  metadata : option Metadata
}.
End LogActivityParams.

Module LogDeliverableParams.
Record t := {
  taskId : string;
  deliverableType : string;
  title : string;
  path : option string;
  description : option string
}.
End LogDeliverableParams.

(** An element of [CompleteSubAgentParams.deliverables]. *)
Module DeliverableItem.
Record t := {
  type : string;
  title : string;
  path : option string;
  description : option string
}.
End DeliverableItem.

Module CompleteSubAgentParams.
Record t := {
  taskId : string;
  sessionId : string;
  agentName : string;
  summary : string;
  deliverables : option (list DeliverableItem.t)
}.
End CompleteSubAgentParams.

Record SpawnResult := {
  sr_sessionId : string;
  reused : bool
}.

Record EndStateReport := {
  allDeliverablesExist : bool;
  deliverablesRegistered : bool;
  sessionsCompleted : bool;
  completionActivityLogged : bool;
  statusIsReview : bool;
  ready : bool;
  issues : list string
}.

(** ** Request paths *)

Definition task_path (taskId : string) : string := "/api/tasks/" ++ taskId.
Definition subagent_path (taskId : string) : string :=
  "/api/tasks/" ++ taskId ++ "/subagent".
Definition activities_path (taskId : string) : string :=
  "/api/tasks/" ++ taskId ++ "/activities".
Definition deliverables_path (taskId : string) : string :=
  "/api/tasks/" ++ taskId ++ "/deliverables".
Definition session_path (sessionId : string) : string :=
  "/api/openclaw/sessions/" ++ sessionId.

Definition dquote : string := String (ascii_of_nat 34) EmptyString.

(** ** Activity logging *)

Definition logActivity (params : LogActivityParams.t) : Async unit :=
  let taskId := LogActivityParams.taskId params in
  try_catch
    (apiPost (activities_path taskId)
       (ActivityBody (LogActivityParams.activityType params)
          (LogActivityParams.message params)
          (LogActivityParams.agentId params)
          (LogActivityParams.metadata params))
       (route_post_activity taskId
          (LogActivityParams.activityType params)
          (LogActivityParams.message params)
          (LogActivityParams.agentId params)
          (LogActivityParams.metadata params)) ;;;
     ret tt)
    (fun error =>
       console_write
         (ConsoleError ("Failed to log activity for task " ++ taskId ++ ":") error)).

(** ** Status transitions and deliverable reads *)

Definition getDeliverables (taskId : string) : Async (list Deliverable.t) :=
  try_catch
    (apiGet (deliverables_path taskId) (route_get_deliverables taskId))
    (fun error =>
       console_write
         (ConsoleError ("Failed to fetch deliverables for task " ++ taskId ++ ":")
            error) ;;;
       ret []).

Definition verifyTaskHasDeliverables (taskId : string) : Async bool :=
  ds <- getDeliverables taskId ;;
  ret (0 <? length ds)%nat.

Definition transitionStatus (taskId newStatus : string) (agentId : option string)
    : Async Task.t :=
  task <- apiGet (task_path taskId) (route_get_task taskId) ;;
  if negb (isValidTransition (Task.status task) newStatus) then
    throw (InvalidTransition (Task.status task) newStatus)
  else
    let updated_by := if truthy agentId then agentId else None in
    apiPatch (task_path taskId) (StatusBody newStatus updated_by)
      (route_patch_task taskId newStatus updated_by).

Definition startWork (taskId : string) : Async (option Task.t) :=
  task <- apiGet (task_path taskId) (route_get_task taskId) ;;
  if Task.status task =? "in_progress" then ret None
  else if negb (Task.status task =? "assigned") then
    throw (CannotStartWork (Task.status task))
  else
    t <- transitionStatus taskId "in_progress" None ;;
    ret (Some t).

Definition moveToReview (taskId : string) : Async Task.t :=
  ds <- getDeliverables taskId ;;
  if (length ds =? 0)%nat then throw PreconditionFailed
  else transitionStatus taskId "review" None.

(** ** Sub-agent sessions *)

Definition spawnSubAgent (params : SpawnSubAgentParams.t) : Async SpawnResult :=
  let taskId := SpawnSubAgentParams.taskId params in
  existing <- apiGet (subagent_path taskId) (route_get_subagent taskId) ;;
  let active := filter is_active existing in
  match active with
  | newest :: _ =>
      let sid := Session.openclaw_session_id newest in
      console_write
        (ConsoleLog ("Reusing existing session " ++ sid ++ " (duplicate prevention)")) ;;;
      logActivity
        {| LogActivityParams.taskId := taskId;
           LogActivityParams.activityType := "updated";
           LogActivityParams.message :=
             "Reusing existing sub-agent session: "
               ++ env_or (Session.agent_name newest) sid;
           LogActivityParams.agentId := None;
           LogActivityParams.metadata :=
             Some [("sessionId", JString sid); ("reused", JBool true)] |} ;;;
      ret {| sr_sessionId := sid; reused := true |}
  | [] =>
      Promise_all
        [ logActivity
            {| LogActivityParams.taskId := taskId;
               LogActivityParams.activityType := "spawned";
               LogActivityParams.message :=
                 "Sub-agent spawned: " ++ SpawnSubAgentParams.agentName params;
               LogActivityParams.agentId := None;
               LogActivityParams.metadata :=
                 Some [("sessionId", JString (SpawnSubAgentParams.sessionId params));
                       ("role", JString (SpawnSubAgentParams.agentName params));
                       ("description",
                        of_optional (SpawnSubAgentParams.description params))] |};
          apiPost (subagent_path taskId)
            (SubagentBody (SpawnSubAgentParams.sessionId params)
               (Some (SpawnSubAgentParams.agentName params)))
            (route_post_subagent taskId (SpawnSubAgentParams.sessionId params)
               (Some (SpawnSubAgentParams.agentName params))) ;;;
          ret tt ] ;;;
      ret {| sr_sessionId := SpawnSubAgentParams.sessionId params; reused := false |}
  end.

Definition deleteStuckSession (sessionId : string) : Async unit :=
  apiDelete (session_path sessionId) (route_delete_session sessionId).

Section Orchestrator.
Variable env : Env.

(** ** Deliverables *)

Definition logDeliverable (params : LogDeliverableParams.t) : Async unit :=
  let taskId := LogDeliverableParams.taskId params in
  (if truthy (LogDeliverableParams.path params)
      && (LogDeliverableParams.deliverableType params =? "file")
   then
     let p := match LogDeliverableParams.path params with
              | Some p => p | None => EmptyString end in
     let resolvedPath := replaceLeadingTilde p (homeDir env) in
     let resolvedBase := replaceLeadingTilde (PROJECTS_BASE env) (homeDir env) in
     if negb (startsWith resolvedPath resolvedBase)
        && negb (startsWith resolvedPath "/")
     then
       console_write
         (ConsoleWarn ("Deliverable path " ++ dquote ++ p ++ dquote
                         ++ " is outside PROJECTS_BASE — registering with warning"))
     else ret tt
   else ret tt) ;;;
  try_catch
    (apiPost (deliverables_path taskId)
       (DeliverableBody (LogDeliverableParams.deliverableType params)
          (LogDeliverableParams.title params)
          (LogDeliverableParams.path params)
          (LogDeliverableParams.description params))
       (route_post_deliverable taskId
          (LogDeliverableParams.deliverableType params)
          (LogDeliverableParams.title params)
          (LogDeliverableParams.path params)
          (LogDeliverableParams.description params)) ;;;
     ret tt)
    (fun error =>
       console_write
         (ConsoleError ("Failed to register deliverable for task " ++ taskId ++ ":")
            error)).

Definition completeSubAgent (params : CompleteSubAgentParams.t) : Async unit :=
  let taskId := CompleteSubAgentParams.taskId params in
  let sessionId := CompleteSubAgentParams.sessionId params in
  endedAt <- toISOString ;;
  let promises : list (Async unit) :=
    [ logActivity
        {| LogActivityParams.taskId := taskId;
           LogActivityParams.activityType := "completed";
           LogActivityParams.message :=
             CompleteSubAgentParams.agentName params ++ " completed: "
               ++ CompleteSubAgentParams.summary params;
           LogActivityParams.agentId := None;
           LogActivityParams.metadata := Some [("sessionId", JString sessionId)] |};
      apiPatch (session_path sessionId) (SessionBody "completed" endedAt)
        (route_patch_session sessionId "completed" endedAt) ]
    ++ match CompleteSubAgentParams.deliverables params with
       | Some ds =>
           map (fun d =>
                  logDeliverable
                    {| LogDeliverableParams.taskId := taskId;
                       LogDeliverableParams.deliverableType := DeliverableItem.type d;
                       LogDeliverableParams.title := DeliverableItem.title d;
                       LogDeliverableParams.path := DeliverableItem.path d;
                       LogDeliverableParams.description :=
                         DeliverableItem.description d |})
               ds
       | None => []
       end in
  Promise_all promises.

(** ** Preflight *)

Definition preflight (taskId : string) (dispatcherOutputDir : option string)
    : Async PreflightResult :=
  task <- apiGet (task_path taskId) (route_get_task taskId) ;;
  let status := Task.status task in
  let outputDir0 :=
    match dispatcherOutputDir with
    | Some (String c d) => String c d
    | _ => (PROJECTS_BASE env ++ "/" ++ taskId ++ "/")%string
    end in
  let outputDir1 := safePath env outputDir0 taskId in
  existing <- apiGet (subagent_path taskId) (route_get_subagent taskId) ;;
  let activeSessions := filter is_active existing in
  let hasActive := (0 <? length activeSessions)%nat in
  let '(can, why) :=
    if status =? "inbox" then
      (false, Some "Task is in inbox — waiting for assignment.")
    else if status =? "assigned" then
      (true, Some "Task is assigned — ready to start. Will PATCH to in_progress.")
    else if status =? "in_progress" then
      (true, Some "Task is in progress — continue work.")
    else if status =? "testing" then
      (false, Some "Task is in testing — automated gate, do not override.")
    else if status =? "review" then
      (false, Some "Task is in review — awaiting human approval.")
    else if status =? "done" then
      (false, Some "Task is done — halt safely.")
    else (false, None) in
  ret {| pf_task := task; pf_status := status; outputDir := outputDir1;
         existingSessions := existing; hasActiveSession := hasActive;
         canStart := can; reason := why |}.
End Orchestrator.

(** ** End-state checklist *)

Definition endStateCheck (taskId : string) : Async EndStateReport :=
  let issues0 : list string := [] in
  ds <- getDeliverables taskId ;;
  let registered := (0 <? length ds)%nat in
  let issues1 :=
    if negb registered then issues0 ++ ["No deliverables registered via API"]
    else issues0 in
  let allExist :=
    forallb (fun d => if negb (Deliverable.deliverable_type d =? "file")
                      then true else true) ds in
  ss <- apiGet (subagent_path taskId) (route_get_subagent taskId) ;;
  let activeSessions := filter is_active ss in
  let completed := (length activeSessions =? 0)%nat in
  let issues2 :=
    if negb completed then
      issues1 ++ [(nat_to_string (length activeSessions)
                     ++ " sub-agent session(s) still active")%string]
    else issues1 in
  acts <- apiGet (activities_path taskId) (route_get_activities taskId) ;;
  let logged := existsb (fun a => Activity.activity_type a =? "completed") acts in
  let issues3 :=
    if negb logged then issues2 ++ ["No completion activity logged"] else issues2 in
  task <- apiGet (task_path taskId) (route_get_task taskId) ;;
  let isReview := Task.status task =? "review" in
  let issues4 :=
    if negb isReview && negb (Task.status task =? "done") then
      issues3 ++ [("Task status is '" ++ Task.status task
                     ++ "', expected 'review'")%string]
    else issues3 in
  let ready_ :=
    registered && completed && logged
    && (isReview || (Task.status task =? "done")) in
  ret {| allDeliverablesExist := allExist;
         deliverablesRegistered := registered;
         sessionsCompleted := completed;
         completionActivityLogged := logged;
         statusIsReview := isReview;
         ready := ready_;
         issues := issues4 |}.

(** ** Two callers at once *)

(** What [spawnSubAgent] does once the session list it awaited is there:
    [existing] is the list as read, which another caller may have made
    stale in the meantime. *)
Definition spawnSubAgent_resume (params : SpawnSubAgentParams.t)
    (existing : list Session.t) : Async SpawnResult :=
  let taskId := SpawnSubAgentParams.taskId params in
  let active := filter is_active existing in
  match active with
  | newest :: _ =>
      let sid := Session.openclaw_session_id newest in
      console_write
        (ConsoleLog ("Reusing existing session " ++ sid ++ " (duplicate prevention)")) ;;;
      logActivity
        {| LogActivityParams.taskId := taskId;
           LogActivityParams.activityType := "updated";
           LogActivityParams.message :=
             "Reusing existing sub-agent session: "
               ++ env_or (Session.agent_name newest) sid;
           LogActivityParams.agentId := None;
           LogActivityParams.metadata :=
             Some [("sessionId", JString sid); ("reused", JBool true)] |} ;;;
      ret {| sr_sessionId := sid; reused := true |}
  | [] =>
      Promise_all
        [ logActivity
            {| LogActivityParams.taskId := taskId;
               LogActivityParams.activityType := "spawned";
               LogActivityParams.message :=
                 "Sub-agent spawned: " ++ SpawnSubAgentParams.agentName params;
               LogActivityParams.agentId := None;
               LogActivityParams.metadata :=
                 Some [("sessionId", JString (SpawnSubAgentParams.sessionId params));
                       ("role", JString (SpawnSubAgentParams.agentName params));
                       ("description",
                        of_optional (SpawnSubAgentParams.description params))] |};
          apiPost (subagent_path taskId)
            (SubagentBody (SpawnSubAgentParams.sessionId params)
               (Some (SpawnSubAgentParams.agentName params)))
            (route_post_subagent taskId (SpawnSubAgentParams.sessionId params)
               (Some (SpawnSubAgentParams.agentName params))) ;;;
          ret tt ] ;;;
      ret {| sr_sessionId := SpawnSubAgentParams.sessionId params; reused := false |}
  end.


(** ** Legacy names *)

Module RegisterSubAgentSessionParams.
Record t := {
  taskId : string;
  sessionId : string;
  agentName : option string
}.
End RegisterSubAgentSessionParams.

(** [onSubAgentSpawned]: the old name of [spawnSubAgent]. *)
Definition onSubAgentSpawned (params : SpawnSubAgentParams.t) : Async SpawnResult :=
  spawnSubAgent params.

(** [onSubAgentCompleted]: the old name of [completeSubAgent]. *)
Definition onSubAgentCompleted (env : Env) (params : CompleteSubAgentParams.t)
    : Async unit :=
  completeSubAgent env params.


Definition completeSubAgentSession (sessionId : string) : Async unit :=
  endedAt <- toISOString ;;
  apiPatch (session_path sessionId) (SessionBody "completed" endedAt)
    (route_patch_session sessionId "completed" endedAt) ;;;
  ret tt.

(** ** Vocabulary of the properties *)

(** The store serves the next [n] requests. *)
Definition served (n : nat) (w : World) : bool :=
  forallb negb (firstn n (faults w)).


(** A request that would register a sub-agent session. *)
Definition registers_session (r : Request) : bool :=
  match req_method r, req_body r with
  | POST, Some (SubagentBody _ _) => true
  | _, _ => false
  end.

(** A request that would change a task status. *)
Definition updates_status (r : Request) : bool :=
  match req_method r, req_body r with
  | PATCH, Some (StatusBody _ _) => true
  | _, _ => false
  end.

Definition is_completion (a : Activity.t) : bool :=
  Activity.activity_type a =? "completed".

(** What a deliverable says, apart from the identifier the store gave it. *)
Definition deliverable_content (d : Deliverable.t)
    : string * string * string * option string * option string :=
  (Deliverable.task_id d, Deliverable.deliverable_type d, Deliverable.title d,
   Deliverable.path d, Deliverable.description d).

Definition item_content (taskId : string) (d : DeliverableItem.t)
    : string * string * string * option string * option string :=
  (taskId, DeliverableItem.type d, DeliverableItem.title d,
   DeliverableItem.path d, DeliverableItem.description d).

(** The requests and store changes of the best-effort writes. *)
Definition activity_request (p : LogActivityParams.t) : Request :=
  {| req_method := POST;
     req_path := activities_path (LogActivityParams.taskId p);
     req_body := Some (ActivityBody (LogActivityParams.activityType p)
                         (LogActivityParams.message p)
                         (LogActivityParams.agentId p)
                         (LogActivityParams.metadata p)) |}.

Definition post_activity (p : LogActivityParams.t) (st : Store) : Store :=
  snd (route_post_activity (LogActivityParams.taskId p)
         (LogActivityParams.activityType p) (LogActivityParams.message p)
         (LogActivityParams.agentId p) (LogActivityParams.metadata p) st).

Definition deliverable_request (p : LogDeliverableParams.t) : Request :=
  {| req_method := POST;
     req_path := deliverables_path (LogDeliverableParams.taskId p);
     req_body := Some (DeliverableBody (LogDeliverableParams.deliverableType p)
                         (LogDeliverableParams.title p)
                         (LogDeliverableParams.path p)
                         (LogDeliverableParams.description p)) |}.

Definition post_deliverable (p : LogDeliverableParams.t) (st : Store) : Store :=
  snd (route_post_deliverable (LogDeliverableParams.taskId p)
         (LogDeliverableParams.deliverableType p) (LogDeliverableParams.title p)
         (LogDeliverableParams.path p) (LogDeliverableParams.description p) st).

(** The line [logDeliverable] writes for a path it takes to be outside the
    root. *)
Definition outside_warning (p : string) : ConsoleLine :=
  ConsoleWarn ("Deliverable path " ++ dquote ++ p ++ dquote
                 ++ " is outside PROJECTS_BASE — registering with warning").

(** The parameters [completeSubAgent] hands to [logDeliverable] and
    [logActivity], and the deliverables it was given. *)
Definition item_params (taskId : string) (d : DeliverableItem.t)
    : LogDeliverableParams.t :=
  {| LogDeliverableParams.taskId := taskId;
     LogDeliverableParams.deliverableType := DeliverableItem.type d;
     LogDeliverableParams.title := DeliverableItem.title d;
     LogDeliverableParams.path := DeliverableItem.path d;
     LogDeliverableParams.description := DeliverableItem.description d |}.

Definition completion_params (params : CompleteSubAgentParams.t)
    : LogActivityParams.t :=
  {| LogActivityParams.taskId := CompleteSubAgentParams.taskId params;
     LogActivityParams.activityType := "completed";
     LogActivityParams.message :=
       CompleteSubAgentParams.agentName params ++ " completed: "
         ++ CompleteSubAgentParams.summary params;
     LogActivityParams.agentId := None;
     LogActivityParams.metadata :=
       Some [("sessionId", JString (CompleteSubAgentParams.sessionId params))] |}.

Definition supplied (params : CompleteSubAgentParams.t) : list DeliverableItem.t :=
  match CompleteSubAgentParams.deliverables params with
  | Some ds => ds
  | None => []
  end.

(** Every task of [st] is still there in [st'], at the same status or at a
    status the lifecycle allows after it. *)
Definition advances (st st' : Store) : Prop :=
  forall k t,
    find_task k st = Some t ->
    exists t', find_task k st' = Some t'
               /\ (Task.status t' = Task.status t
                   \/ isValidTransition (Task.status t) (Task.status t') = true).

(** The store never fails from here on. *)
Definition reliable (w : World) : Prop := faults w = [].

(** A request that only reads. *)
Definition is_read (r : Request) : bool :=
  match req_method r, req_body r with
  | GET, None => true
  | _, _ => false
  end.

(** The activity [spawnSubAgent] logs for a new session. *)
Definition spawned_params (params : SpawnSubAgentParams.t) : LogActivityParams.t :=
  {| LogActivityParams.taskId := SpawnSubAgentParams.taskId params;
     LogActivityParams.activityType := "spawned";
     LogActivityParams.message :=
       "Sub-agent spawned: " ++ SpawnSubAgentParams.agentName params;
     LogActivityParams.agentId := None;
     LogActivityParams.metadata :=
       Some [("sessionId", JString (SpawnSubAgentParams.sessionId params));
             ("role", JString (SpawnSubAgentParams.agentName params));
             ("description", of_optional (SpawnSubAgentParams.description params))] |}.

(** The request by which [spawnSubAgent] registers a session. *)
Definition register_request (taskId sessionId : string) (agentName : option string)
    : Request :=
  {| req_method := POST; req_path := subagent_path taskId;
     req_body := Some (SubagentBody sessionId agentName) |}.

(** The value of a call that returned. *)
Definition returned {A} (o : Outcome A) : option A :=
  match o with Returned a => Some a | Thrown _ => None end.

(** ** Sample configuration and stores *)

Module Sample.
Definition env : Env :=
  {| HOME := Some "/home/chip";
     MISSION_CONTROL_PROJECTS_BASE := Some "~/projects";
     projectsPath := "/srv/projects" |}.

Definition task (id status : string) : Task.t :=
  {| Task.id := id; Task.status := status;
     Task.assigned_agent_id := None; Task.metadata := [] |}.

Definition session (id taskId status : string) : Session.t :=
  {| Session.id := id; Session.agent_id := None;
     Session.openclaw_session_id := id; Session.session_type := "subagent";
     Session.task_id := taskId; Session.status := status;
     Session.ended_at := None; Session.created_at := "2026-01-01T00:00:00.000Z";
     Session.agent_name := Some "Developer" |}.

Definition deliverable (taskId path : string) : Deliverable.t :=
  {| Deliverable.id := "deliverable-0"; Deliverable.task_id := taskId;
     Deliverable.deliverable_type := "file"; Deliverable.title := "Report";
     Deliverable.path := Some path; Deliverable.description := None |}.

Definition completion (taskId : string) : Activity.t :=
  {| Activity.id := "activity-0"; Activity.task_id := taskId;
     Activity.activity_type := "completed"; Activity.message := "Developer completed: ok";
     Activity.agent_id := None; Activity.metadata := None;
     Activity.created_at := "2026-01-01T00:00:00.000Z" |}.

Definition mkStore (ts : list Task.t) (ss : list Session.t)
    (acts : list Activity.t) (ds : list Deliverable.t) : Store :=
  {| tasks := ts; sessions := ss; activities := acts; deliverables := ds;
     masters := ["master"]; dedupOnPost := false;
     clock := "2026-01-01T00:00:00.000Z"; next_id := 1 |}.

Definition world (st : Store) (fs : list bool) : World :=
  {| store := st; faults := fs; requests := []; console := [];
     now := "2026-01-02T00:00:00.000Z" |}.
End Sample.

(** * Properties *)

(** ** Strings *)

Lemma prefix_app (p s : string) : String.prefix p (p ++ s) = true.
Proof.
  induction p as [|c p IH]; simpl.
  - destruct s; reflexivity.
  - destruct (ascii_dec c c) as [_|ne]; [exact IH | now elim ne].
Qed.

Lemma startsWith_app (p s : string) : startsWith (p ++ s) p = true.
Proof. apply prefix_app. Qed.

Lemma replaceLeadingTilde_plain (s repl : string) :
  startsWith s "~" = false -> replaceLeadingTilde s repl = s.
Proof.
  destruct s as [|c s]; [reflexivity|].
  unfold startsWith, replaceLeadingTilde; simpl.
  destruct (Ascii.eqb_spec c "~") as [->|ne]; [|reflexivity].
  simpl. destruct s; discriminate.
Qed.

Lemma getSubstitution_plain (m b a repl : string) :
  no_dollar repl = true -> getSubstitution m b a repl = repl.
Proof.
  induction repl as [|c r IH]; simpl; [reflexivity|].
  destruct (Ascii.eqb c "$"); simpl; [discriminate|].
  intros H. now rewrite IH.
Qed.


(** ** The lifecycle order *)

Lemma indexOf_lower (l : list string) (x : string) : (-1 <= indexOf l x)%Z.
Proof.
  induction l as [|y l IH]; simpl; [lia|].
  destruct (String.eqb y x); [lia|].
  destruct (Z.eqb_spec (indexOf l x) (-1)); lia.
Qed.

Lemma isValidTransition_not_later (from to : string) :
  (indexOf STATUS_ORDER to <= indexOf STATUS_ORDER from)%Z ->
  isValidTransition from to = false.
Proof.
  intros H. unfold isValidTransition.
  destruct ((indexOf STATUS_ORDER from =? -1)%Z || (indexOf STATUS_ORDER to =? -1)%Z);
    [reflexivity|].
  unfold Z.gtb. destruct (Z.compare_spec (indexOf STATUS_ORDER to)
                                          (indexOf STATUS_ORDER from)); try reflexivity; lia.
Qed.

Lemma isValidTransition_later (from to : string) :
  (0 <= indexOf STATUS_ORDER from < indexOf STATUS_ORDER to)%Z ->
  isValidTransition from to = true.
Proof.
  intros H. unfold isValidTransition.
  destruct (Z.eqb_spec (indexOf STATUS_ORDER from) (-1)); [lia|].
  destruct (Z.eqb_spec (indexOf STATUS_ORDER to) (-1)); [lia|].
  cbn [orb]. apply Z.gtb_lt. lia.
Qed.

Lemma is_backward_forward (current target : string) :
  (indexOf STATUS_ORDER current <= indexOf STATUS_ORDER target)%Z ->
  is_backward current target = false.
Proof.
  intros H. unfold is_backward.
  destruct (Z.ltb_spec (indexOf STATUS_ORDER target) (indexOf STATUS_ORDER current));
    [lia | apply andb_false_r].
Qed.

(** C1.  For every ordered pair of lifecycle statuses, [from] at position
    [i] and [to] at position [j] of the fixed order inbox, assigned,
    in_progress, testing, review, done, [isValidTransition from to] is true
    if and only if [j] is strictly greater than [i]. *)
Theorem isValidTransition_iff_later (i j : nat) (from to : string) :
  nth_error STATUS_ORDER i = Some from ->
  nth_error STATUS_ORDER j = Some to ->
  isValidTransition from to = (i <? j)%nat.
Proof.
  intros Hi Hj.
  repeat (destruct i as [|i]; [injection Hi as <- | simpl in Hi]);
    try (destruct i; discriminate Hi);
    repeat (destruct j as [|j]; [injection Hj as <- | simpl in Hj]);
    try (destruct j; discriminate Hj);
    reflexivity.
Qed.

Lemma isValidTransition_review_to_in_progress :
  isValidTransition "review" "in_progress" = (4 <? 2)%nat.
Proof. apply isValidTransition_iff_later; reflexivity. Defined.

(** ** The path sandbox *)


(** An attempt to leave the root by a relative path is overridden, and a home-relative
    candidate under the root is expanded and kept. *)
Example safePath_escape :
  safePath Sample.env "../../etc/passwd" "T1" = "/home/chip/projects/T1/"
  /\ safePath Sample.env "/etc/passwd" "T1" = "/home/chip/projects/T1/"
  /\ safePath Sample.env "~/projects/T1/out" "T1" = "/home/chip/projects/T1/out".
Proof. repeat split. Qed.


(** ** Requests *)

Lemma api_run {T} (m : Method) (path : string) (body : option Body)
    (route : Store -> Response T * Store) (w : World) :
  api m path body route w =
  let r := {| req_method := m; req_path := path; req_body := body |} in
  if hd false (faults w) then
    (Thrown (HttpError m path 500 "Internal Server Error"), answered w (store w) r)
  else
    (match fst (route (store w)) with
     | Ok200 v => Returned v
     | NotOk status text => Thrown (HttpError m path status text)
     end,
     answered w (snd (route (store w))) r).
Proof.
  unfold api, fetch.
  destruct (faults w) as [|[] fs]; simpl; try reflexivity;
    destruct (route (store w)) as [[v|status text] st']; reflexivity.
Qed.

Lemma apiGet_run {T} (path : string) (route : Store -> Response T) (w : World) :
  apiGet path route w =
  let r := {| req_method := GET; req_path := path; req_body := None |} in
  (if hd false (faults w) then Thrown (HttpError GET path 500 "Internal Server Error")
   else match route (store w) with
        | Ok200 v => Returned v
        | NotOk status text => Thrown (HttpError GET path status text)
        end,
   answered w (store w) r).
Proof.
  unfold apiGet. rewrite api_run. simpl.
  destruct (hd false (faults w)); reflexivity.
Qed.

Lemma served_next (n : nat) (w : World) :
  served (S n) w = true ->
  hd false (faults w) = false
  /\ forall st r, served n (answered w st r) = true.
Proof.
  unfold served. destruct (faults w) as [|b fs] eqn:E; simpl.
  - intros _. split; [reflexivity|]. intros st r.
    rewrite E. cbn [tl]. now rewrite firstn_nil.
  - intros H. apply andb_prop in H as [Hb Hfs]. split.
    + now destruct b.
    + intros st r. rewrite E. exact Hfs.
Qed.

(** ** Reading deliverables *)

Lemma getDeliverables_run (taskId : string) (w : World) :
  getDeliverables taskId w =
  let r := {| req_method := GET; req_path := deliverables_path taskId;
              req_body := None |} in
  if hd false (faults w) then
    (Returned [],
     snd (console_write
            (ConsoleError ("Failed to fetch deliverables for task " ++ taskId ++ ":")
               (HttpError GET (deliverables_path taskId) 500 "Internal Server Error"))
            (answered w (store w) r)))
  else (Returned (deliverables_of taskId (store w)), answered w (store w) r).
Proof.
  unfold getDeliverables, try_catch. rewrite apiGet_run. cbv zeta.
  destruct (hd false (faults w)); reflexivity.
Qed.

(** C7, as the code has it.  [getDeliverables] and
    [verifyTaskHasDeliverables] are pure reads: each sends one GET and leaves
    the store as it was.  Neither passes a store failure on to its caller:
    when the store fails, [getDeliverables] writes the failure to the error
    console and returns the empty list, and [verifyTaskHasDeliverables]
    returns false; otherwise they write nothing and return the registered
    deliverables of the task and whether there is at least one. *)
Theorem deliverable_reads_never_throw (taskId : string) (w : World) :
  let r := {| req_method := GET; req_path := deliverables_path taskId;
              req_body := None |} in
  let diagnostic :=
    ConsoleError ("Failed to fetch deliverables for task " ++ taskId ++ ":")
      (HttpError GET (deliverables_path taskId) 500 "Internal Server Error") in
  fst (getDeliverables taskId w)
    = Returned (if hd false (faults w) then [] else deliverables_of taskId (store w))
  /\ store (snd (getDeliverables taskId w)) = store w
  /\ requests (snd (getDeliverables taskId w)) = requests w ++ [r]
  /\ fst (verifyTaskHasDeliverables taskId w)
     = Returned (if hd false (faults w) then false
                 else (0 <? length (deliverables_of taskId (store w)))%nat)
  /\ store (snd (verifyTaskHasDeliverables taskId w)) = store w
  /\ requests (snd (verifyTaskHasDeliverables taskId w)) = requests w ++ [r]
  /\ console (snd (getDeliverables taskId w))
     = console w ++ (if hd false (faults w) then [diagnostic] else [])
  /\ console (snd (verifyTaskHasDeliverables taskId w))
     = console w ++ (if hd false (faults w) then [diagnostic] else []).
Proof.
  cbv zeta. unfold verifyTaskHasDeliverables, bind.
  rewrite getDeliverables_run. cbv zeta.
  destruct (hd false (faults w)); cbn [fst snd ret console console_write answered];
    rewrite ?app_nil_r; repeat split.
Qed.

(** Against C7 as worded: with a deliverable registered and the store
    answering 500, [getDeliverables] returns normally, with the empty list,
    and nothing is thrown to the caller; the failure goes to the console. *)
Lemma getDeliverables_swallows_store_failure :
  let w := Sample.world
             (Sample.mkStore [Sample.task "T2" "in_progress"] [] []
                [Sample.deliverable "T2" "/home/chip/projects/T2/report.md"])
             [true] in
  hd false (faults w) = true
  /\ fst (getDeliverables "T2" w) = Returned []
  /\ (forall e, fst (getDeliverables "T2" w) <> Thrown e)
  /\ fst (verifyTaskHasDeliverables "T2" w) = Returned false
  /\ console (snd (getDeliverables "T2" w))
     = [ConsoleError "Failed to fetch deliverables for task T2:"
          (HttpError GET "/api/tasks/T2/deliverables" 500 "Internal Server Error")].
Proof. cbv zeta. repeat split. intros e H. discriminate H. Qed.

(** ** Status transitions *)

(** C6.  [transitionStatus] reads the task's status from the store at the
    time of the call (it takes no status from its caller) and, when the
    target is not strictly later than that status in the lifecycle order,
    throws an invalid-transition error that names the current status and
    the target; the only request it has sent is the GET of the task, so no
    status update is issued and the store is as before. *)
Theorem transitionStatus_rejects_not_later
    (taskId to : string) (agentId : option string) (w : World) (t : Task.t) :
  hd false (faults w) = false ->
  find_task taskId (store w) = Some t ->
  (indexOf STATUS_ORDER to <= indexOf STATUS_ORDER (Task.status t))%Z ->
  transitionStatus taskId to agentId w
  = (Thrown (InvalidTransition (Task.status t) to),
     answered w (store w)
       {| req_method := GET; req_path := task_path taskId; req_body := None |})
  /\ error_message (InvalidTransition (Task.status t) to)
     = ("Invalid status transition: " ++ Task.status t ++ " → " ++ to
          ++ ". Only forward transitions allowed.")%string
  /\ existsb updates_status (requests (snd (transitionStatus taskId to agentId w)))
     = existsb updates_status (requests w).
Proof.
  intros Hf Ht Hle.
  assert (E : transitionStatus taskId to agentId w
              = (Thrown (InvalidTransition (Task.status t) to),
                 answered w (store w)
                   {| req_method := GET; req_path := task_path taskId;
                      req_body := None |})).
  { unfold transitionStatus, bind. rewrite apiGet_run. cbv zeta.
    rewrite Hf. unfold route_get_task. rewrite Ht.
    now rewrite (isValidTransition_not_later _ _ Hle). }
  rewrite E. repeat split. simpl.
  rewrite existsb_app. simpl. now rewrite !orb_false_r.
Qed.

(** The scenario of the specification: T3 is in review and is asked to go
    back to in_progress. *)
Lemma transitionStatus_T3_scenario :
  let w := Sample.world (Sample.mkStore [Sample.task "T3" "review"] [] [] []) [] in
  fst (transitionStatus "T3" "in_progress" None w)
    = Thrown (InvalidTransition "review" "in_progress")
  /\ store (snd (transitionStatus "T3" "in_progress" None w)) = store w.
Proof.
  cbv zeta.
  destruct (transitionStatus_rejects_not_later "T3" "in_progress" None
              (Sample.world (Sample.mkStore [Sample.task "T3" "review"] [] [] []) [])
              (Sample.task "T3" "review")) as (E & _ & _).
  - reflexivity.
  - reflexivity.
  - simpl. lia.
  - rewrite E. split; reflexivity.
Defined.

Lemma find_status_updated (l : list Task.t) (taskId s : string) (t : Task.t) :
  find (fun x => Task.id x =? taskId) l = Some t ->
  find (fun x => Task.id x =? taskId)
       (map (fun x => if Task.id x =? taskId then Task.with_status s x else x) l)
  = Some (Task.with_status s t).
Proof.
  induction l as [|a l IH]; simpl; [discriminate|].
  destruct (Task.id a =? taskId) eqn:E; simpl.
  - intros [= ->]. now rewrite E.
  - rewrite E. exact IH.
Qed.

Lemma moveToReview_without_deliverables (taskId : string) (w : World) :
  deliverables_of taskId (store w) = [] ->
  fst (moveToReview taskId w) = Thrown PreconditionFailed
  /\ store (snd (moveToReview taskId w)) = store w
  /\ existsb updates_status (requests (snd (moveToReview taskId w)))
     = existsb updates_status (requests w).
Proof.
  intros Hd. unfold moveToReview, bind. rewrite getDeliverables_run. cbv zeta.
  destruct (hd false (faults w)); [|rewrite Hd]; simpl;
    (repeat split; rewrite existsb_app; simpl; now rewrite !orb_false_r).
Qed.

Lemma moveToReview_with_deliverables (taskId : string) (w : World) (t : Task.t) :
  deliverables_of taskId (store w) <> [] ->
  served 3 w = true ->
  find_task taskId (store w) = Some t ->
  (0 <= indexOf STATUS_ORDER (Task.status t) < indexOf STATUS_ORDER "review")%Z ->
  fst (moveToReview taskId w) = Returned (Task.with_status "review" t)
  /\ find_task taskId (store (snd (moveToReview taskId w)))
     = Some (Task.with_status "review" t).
Proof.
  intros Hd Hs Ht Hlt.
  apply served_next in Hs as [F1 Hs].
  unfold moveToReview, bind. rewrite getDeliverables_run. cbv zeta. rewrite F1.
  destruct (deliverables_of taskId (store w)) as [|d ds] eqn:Ed; [now elim Hd|].
  cbn [length Nat.eqb].
  set (w1 := answered w (store w) _).
  specialize (Hs (store w) {| req_method := GET; req_path := deliverables_path taskId;
                              req_body := None |}).
  fold w1 in Hs. apply served_next in Hs as [F2 Hs].
  unfold transitionStatus, bind. rewrite apiGet_run. cbv zeta. rewrite F2.
  change (store w1) with (store w). unfold route_get_task. rewrite Ht.
  rewrite (isValidTransition_later _ _ Hlt). cbn [negb truthy].
  set (w2 := answered w1 (store w) _).
  specialize (Hs (store w) {| req_method := GET; req_path := task_path taskId;
                              req_body := None |}).
  fold w2 in Hs. apply served_next in Hs as [F3 _].
  unfold apiPatch. rewrite api_run. cbv zeta. rewrite F3.
  change (store w2) with (store w). unfold route_patch_task. rewrite Ht.
  rewrite is_backward_forward by lia.
  change ("review" =? "done") with false. cbn [andb fst snd].
  split; [reflexivity|].
  unfold find_task, answered, set_tasks. cbn [store tasks].
  now apply find_status_updated.
Qed.

(** C5.  With no deliverable registered for the task, [moveToReview] fails
    with the precondition error, sends no status update and leaves the
    store, the task's status with it, unchanged.  With at least one
    deliverable registered, the task at a status strictly before review in
    the lifecycle order and the store serving the three requests of the
    call, it returns the task in status review, and review is the status
    the store then holds for the task. *)
Theorem moveToReview_requires_deliverable (taskId : string) (w : World) :
  (deliverables_of taskId (store w) = [] ->
   fst (moveToReview taskId w) = Thrown PreconditionFailed
   /\ store (snd (moveToReview taskId w)) = store w
   /\ existsb updates_status (requests (snd (moveToReview taskId w)))
      = existsb updates_status (requests w))
  /\ (forall t,
      deliverables_of taskId (store w) <> [] ->
      served 3 w = true ->
      find_task taskId (store w) = Some t ->
      (0 <= indexOf STATUS_ORDER (Task.status t) < indexOf STATUS_ORDER "review")%Z ->
      fst (moveToReview taskId w) = Returned (Task.with_status "review" t)
      /\ option_map Task.status (find_task taskId (store (snd (moveToReview taskId w))))
         = Some "review").
Proof.
  split.
  - apply moveToReview_without_deliverables.
  - intros t Hd Hs Ht Hlt.
    destruct (moveToReview_with_deliverables taskId w t Hd Hs Ht Hlt) as [R F].
    split; [exact R|]. now rewrite F.
Qed.

(** The scenario of the specification: T2 is in progress; without a
    deliverable the move is refused and the status stays, with one
    deliverable under the root it goes through. *)
Lemma moveToReview_T2_scenario :
  let w0 := Sample.world (Sample.mkStore [Sample.task "T2" "in_progress"] [] [] []) [] in
  let w1 := Sample.world
              (Sample.mkStore [Sample.task "T2" "in_progress"] [] []
                 [Sample.deliverable "T2" "/home/chip/projects/T2/report.md"]) [] in
  (fst (moveToReview "T2" w0) = Thrown PreconditionFailed
   /\ store (snd (moveToReview "T2" w0)) = store w0)
  /\ (fst (moveToReview "T2" w1) = Returned (Sample.task "T2" "review")
      /\ option_map Task.status (find_task "T2" (store (snd (moveToReview "T2" w1))))
         = Some "review").
Proof.
  cbv zeta. split.
  - destruct (moveToReview_requires_deliverable "T2"
                (Sample.world (Sample.mkStore [Sample.task "T2" "in_progress"] [] [] []) []))
      as [H _].
    destruct (H eq_refl) as (A & B & _). split; assumption.
  - destruct (moveToReview_requires_deliverable "T2"
                (Sample.world
                   (Sample.mkStore [Sample.task "T2" "in_progress"] [] []
                      [Sample.deliverable "T2" "/home/chip/projects/T2/report.md"]) []))
      as [_ H].
    apply (H (Sample.task "T2" "in_progress")).
    + discriminate.
    + reflexivity.
    + reflexivity.
    + simpl. lia.
Defined.

(** ** The end-state checklist *)

Lemma getDeliverables_returns (taskId : string) (w : World) :
  exists ds, fst (getDeliverables taskId w) = Returned ds
             /\ store (snd (getDeliverables taskId w)) = store w.
Proof.
  rewrite getDeliverables_run. cbv zeta.
  destruct (hd false (faults w)); eexists; split; reflexivity.
Qed.

Lemma trusted_at_registration (ds : list Deliverable.t) :
  forallb (fun d => if negb (Deliverable.deliverable_type d =? "file")
                    then true else true) ds = true.
Proof.
  induction ds as [|d ds IH]; simpl; [reflexivity|].
  rewrite IH. now destruct (negb (Deliverable.deliverable_type d =? "file")).
Qed.

(** C3, as the code has it.  In every report [endStateCheck] returns,
    [allDeliverablesExist] is true and [ready] is the conjunction of
    [deliverablesRegistered], [sessionsCompleted], [completionActivityLogged]
    and of ([statusIsReview] or the task being done); so [ready] is the
    conjunction of the five sub-checks whenever the task is not done. *)
Theorem endStateCheck_ready (taskId : string) (w w' : World) (r : EndStateReport) :
  endStateCheck taskId w = (Returned r, w') ->
  exists t,
    find_task taskId (store w) = Some t
    /\ allDeliverablesExist r = true
    /\ statusIsReview r = (Task.status t =? "review")
    /\ sessionsCompleted r = (length (active_sessions_of taskId (store w)) =? 0)%nat
    /\ completionActivityLogged r = existsb is_completion (activities_of taskId (store w))
    /\ ready r = deliverablesRegistered r && sessionsCompleted r
                 && completionActivityLogged r
                 && (statusIsReview r || (Task.status t =? "done"))
    /\ ((Task.status t =? "done") = false ->
        ready r = allDeliverablesExist r && deliverablesRegistered r
                  && sessionsCompleted r && completionActivityLogged r
                  && statusIsReview r).
Proof.
  unfold endStateCheck, bind.
  destruct (getDeliverables_returns taskId w) as (ds & G & S1).
  destruct (getDeliverables taskId w) as [o w1]. cbn [fst snd] in G, S1. subst o.
  rewrite apiGet_run. cbv zeta.
  destruct (hd false (faults w1)); [discriminate|]. unfold route_get_subagent.
  rewrite apiGet_run. cbv zeta.
  match goal with |- context [hd false (faults ?x)] =>
    destruct (hd false (faults x)); [discriminate|] end.
  unfold route_get_activities.
  rewrite apiGet_run. cbv zeta.
  match goal with |- context [hd false (faults ?x)] =>
    destruct (hd false (faults x)); [discriminate|] end.
  unfold route_get_task. cbn [store answered]. rewrite S1.
  destruct (find_task taskId (store w)) as [t|]; [|discriminate].
  intros [= <- _]. exists t. cbn.
  rewrite trusted_at_registration.
  repeat split. intros ->. now rewrite orb_false_r.
Qed.

(** The checklist is answered whenever the task exists and the store serves
    the four reads. *)
Lemma endStateCheck_returns (taskId : string) (w : World) (t : Task.t) :
  find_task taskId (store w) = Some t ->
  served 4 w = true ->
  exists r, fst (endStateCheck taskId w) = Returned r.
Proof.
  intros Ht Hs. unfold endStateCheck, bind.
  rewrite getDeliverables_run. cbv zeta.
  apply served_next in Hs as [F1 Hs]. rewrite F1.
  rewrite apiGet_run. cbv zeta.
  match goal with |- context [hd false (faults ?x)] =>
    match x with answered w ?st ?r => specialize (Hs st r) end;
    apply served_next in Hs as [F2 Hs]; rewrite F2 end.
  unfold route_get_subagent. rewrite apiGet_run. cbv zeta.
  match goal with |- context [hd false (faults ?x)] =>
    match x with answered _ ?st ?r => specialize (Hs st r) end;
    apply served_next in Hs as [F3 Hs]; rewrite F3 end.
  unfold route_get_activities. rewrite apiGet_run. cbv zeta.
  match goal with |- context [hd false (faults ?x)] =>
    match x with answered _ ?st ?r => specialize (Hs st r) end;
    apply served_next in Hs as [F4 _]; rewrite F4 end.
  unfold route_get_task. cbn [store answered]. rewrite Ht.
  eexists. reflexivity.
Qed.

Lemma endStateCheck_ready_sample :
  let w := Sample.world
             (Sample.mkStore [Sample.task "T1" "review"]
                [Sample.session "s1" "T1" "completed"] [Sample.completion "T1"]
                [Sample.deliverable "T1" "/home/chip/projects/T1/report.md"]) [] in
  exists r, returned (fst (endStateCheck "T1" w)) = Some r
            /\ ready r = true /\ allDeliverablesExist r = true.
Proof.
  cbv zeta. eexists. split; [reflexivity|].
  match goal with |- ready ?r = _ /\ _ => set (rep := r) end.
  destruct (endStateCheck_ready "T1"
              (Sample.world
                 (Sample.mkStore [Sample.task "T1" "review"]
                    [Sample.session "s1" "T1" "completed"] [Sample.completion "T1"]
                    [Sample.deliverable "T1" "/home/chip/projects/T1/report.md"]) [])
              (snd (endStateCheck "T1"
                 (Sample.world
                    (Sample.mkStore [Sample.task "T1" "review"]
                       [Sample.session "s1" "T1" "completed"] [Sample.completion "T1"]
                       [Sample.deliverable "T1" "/home/chip/projects/T1/report.md"]) [])))
              rep eq_refl) as (t & _ & A & _ & _ & _ & R & _).
  split; [reflexivity | exact A].
Defined.

(** Against C3 as worded: for a task that is done, with a deliverable,
    no active session and a completion activity, [ready] is true although
    [statusIsReview], one of the five sub-checks, is false. *)
Lemma endStateCheck_done_is_ready :
  let w := Sample.world
             (Sample.mkStore [Sample.task "T1" "done"]
                [Sample.session "s1" "T1" "completed"] [Sample.completion "T1"]
                [Sample.deliverable "T1" "/home/chip/projects/T1/report.md"]) [] in
  exists r, returned (fst (endStateCheck "T1" w)) = Some r
            /\ ready r = true
            /\ allDeliverablesExist r && deliverablesRegistered r
               && sessionsCompleted r && completionActivityLogged r
               && statusIsReview r = false.
Proof. cbv zeta. eexists. repeat split. Qed.

(** ** Preflight *)

(** The output directory [preflight] answers is the sandboxed dispatcher
    value when one is given, and the sandboxed default otherwise; the task
    plays no part in it. *)
Lemma preflight_outputDir (env : Env) (taskId : string) (dir : option string)
    (w w' : World) (r : PreflightResult) :
  preflight env taskId dir w = (Returned r, w') ->
  outputDir r
  = safePath env
      (if truthy dir then match dir with Some d => d | None => EmptyString end
       else PROJECTS_BASE env ++ "/" ++ taskId ++ "/")%string
      taskId.
Proof.
  unfold preflight, bind. rewrite apiGet_run. cbv zeta.
  destruct (hd false (faults w)); [discriminate|].
  destruct (route_get_task taskId (store w)) as [t|]; [|discriminate].
  rewrite apiGet_run. cbv zeta.
  match goal with |- context [hd false (faults ?x)] =>
    destruct (hd false (faults x)); [discriminate|] end.
  unfold route_get_subagent.
  destruct dir as [[|c d]|]; cbn [truthy];
    repeat match goal with |- context [if ?b then _ else _] => destruct b end;
    intros [= <- _]; reflexivity.
Qed.

(** C8 at the failing input: the task's metadata names an output directory
    under the root and the dispatcher supplies none, yet [preflight] answers
    the default directory of the task. *)
Lemma preflight_ignores_task_metadata :
  let t := {| Task.id := "T1"; Task.status := "assigned";
              Task.assigned_agent_id := None;
              Task.metadata := [("outputDir", "/home/chip/projects/shared/out/")] |} in
  let w := Sample.world (Sample.mkStore [t] [] [] []) [] in
  safePath Sample.env "/home/chip/projects/shared/out/" "T1"
    = "/home/chip/projects/shared/out/"
  /\ option_map outputDir (returned (fst (preflight Sample.env "T1" None w)))
     = Some "/home/chip/projects/T1/".
Proof. cbv zeta. split; reflexivity. Qed.

(** ** Best-effort writes *)

Lemma logActivity_run (p : LogActivityParams.t) (w : World) :
  logActivity p w =
  (Returned tt,
   if hd false (faults w) then
     snd (console_write
            (ConsoleError
               ("Failed to log activity for task " ++ LogActivityParams.taskId p ++ ":")
               (HttpError POST (activities_path (LogActivityParams.taskId p)) 500
                  "Internal Server Error"))
            (answered w (store w) (activity_request p)))
   else answered w (post_activity p (store w)) (activity_request p)).
Proof.
  unfold logActivity, try_catch, bind, apiPost. rewrite api_run. cbv zeta.
  destruct (hd false (faults w)); reflexivity.
Qed.

(** What [logActivity] leaves behind, console apart. *)
Lemma logActivity_effect (p : LogActivityParams.t) (w : World) :
  fst (logActivity p w) = Returned tt
  /\ store (snd (logActivity p w))
     = (if hd false (faults w) then store w else post_activity p (store w))
  /\ faults (snd (logActivity p w)) = tl (faults w)
  /\ requests (snd (logActivity p w)) = requests w ++ [activity_request p]
  /\ now (snd (logActivity p w)) = now w.
Proof.
  rewrite logActivity_run. destruct (hd false (faults w)); repeat split.
Qed.

(** What [logDeliverable] leaves behind, console apart. *)
Lemma logDeliverable_effect (env : Env) (p : LogDeliverableParams.t) (w : World) :
  fst (logDeliverable env p w) = Returned tt
  /\ store (snd (logDeliverable env p w))
     = (if hd false (faults w) then store w else post_deliverable p (store w))
  /\ faults (snd (logDeliverable env p w)) = tl (faults w)
  /\ requests (snd (logDeliverable env p w)) = requests w ++ [deliverable_request p]
  /\ now (snd (logDeliverable env p w)) = now w.
Proof.
  unfold logDeliverable, bind, try_catch, apiPost.
  destruct (truthy (LogDeliverableParams.path p)
            && (LogDeliverableParams.deliverableType p =? "file")).
  - match goal with |- context [if ?b then console_write _ else _] => destruct b end;
      cbn [console_write ret]; rewrite api_run; cbv zeta; cbn [faults store];
      destruct (hd false (faults w)); repeat split.
  - cbn [ret]. rewrite api_run. cbv zeta. destruct (hd false (faults w)); repeat split.
Qed.

(** The leniency of [logDeliverable]: whatever the type and path, and
    whether or not the store answers, it sends the request that registers
    the deliverable and returns normally.  For a deliverable of type file
    with a non-empty path it writes a warning when the path, once a leading
    tilde is expanded, neither starts with the root nor starts with a
    slash. *)
Theorem logDeliverable_lenient (env : Env) (params : LogDeliverableParams.t)
    (w : World) :
  let after := snd (logDeliverable env params w) in
  let resolve p := replaceLeadingTilde p (homeDir env) in
  fst (logDeliverable env params w) = Returned tt
  /\ requests after = requests w ++ [deliverable_request params]
  /\ store after = (if hd false (faults w) then store w
                    else post_deliverable params (store w))
  /\ (forall c p,
        LogDeliverableParams.path params = Some (String c p) ->
        LogDeliverableParams.deliverableType params = "file" ->
        startsWith (resolve (String c p)) (resolvedBase env) = false ->
        startsWith (resolve (String c p)) "/" = false ->
        exists rest,
          console after = console w ++ outside_warning (String c p) :: rest).
Proof.
  cbv zeta.
  destruct (logDeliverable_effect env params w) as (R & S & _ & Q & _).
  repeat split; try assumption.
  - intros c p Hp Ht Hroot Habs.
    unfold logDeliverable, bind, try_catch, apiPost.
    rewrite Hp, Ht. cbn [truthy]. change ("file" =? "file") with true. cbn [andb].
    unfold resolvedBase in Hroot. rewrite Hroot, Habs. cbn [negb andb console_write].
    rewrite api_run. cbv zeta. cbn [faults].
    destruct (hd false (faults w)); cbn [snd console_write console answered];
      eexists; [rewrite <- app_assoc|]; reflexivity.
Qed.

Lemma logDeliverable_lenient_sample :
  let params := {| LogDeliverableParams.taskId := "T1";
                   LogDeliverableParams.deliverableType := "file";
                   LogDeliverableParams.title := "Report";
                   LogDeliverableParams.path := Some "out/report.md";
                   LogDeliverableParams.description := None |} in
  let w := Sample.world (Sample.mkStore [Sample.task "T1" "in_progress"] [] [] []) [] in
  fst (logDeliverable Sample.env params w) = Returned tt
  /\ exists rest, console (snd (logDeliverable Sample.env params w))
                  = outside_warning "out/report.md" :: rest.
Proof.
  cbv zeta.
  pose proof (logDeliverable_lenient Sample.env
                {| LogDeliverableParams.taskId := "T1";
                   LogDeliverableParams.deliverableType := "file";
                   LogDeliverableParams.title := "Report";
                   LogDeliverableParams.path := Some "out/report.md";
                   LogDeliverableParams.description := None |}
                (Sample.world (Sample.mkStore [Sample.task "T1" "in_progress"] [] [] []) []))
    as H.
  cbv zeta in H. destruct H as (R & _ & _ & W). split; [exact R|].
  apply (W "o"%char "ut/report.md"); reflexivity.
Defined.

(** C10 at the failing input.  A file deliverable at [/etc/passwd] does not
    resolve under the root [/home/chip/projects]; [logDeliverable] returns
    normally and registers it, as the lenient policy has it, but writes no
    warning: the check it makes of the path lets every path that starts
    with a slash through. *)
Lemma logDeliverable_absolute_path_no_warning :
  let params := {| LogDeliverableParams.taskId := "T1";
                   LogDeliverableParams.deliverableType := "file";
                   LogDeliverableParams.title := "Passwords";
                   LogDeliverableParams.path := Some "/etc/passwd";
                   LogDeliverableParams.description := None |} in
  let w := Sample.world (Sample.mkStore [Sample.task "T1" "in_progress"] [] [] []) [] in
  startsWith (replaceLeadingTilde "/etc/passwd" (homeDir Sample.env))
             (resolvedBase Sample.env) = false
  /\ fst (logDeliverable Sample.env params w) = Returned tt
  /\ console (snd (logDeliverable Sample.env params w)) = []
  /\ map deliverable_content (deliverables (store (snd (logDeliverable Sample.env params w))))
     = [("T1", "file", "Passwords", Some "/etc/passwd", None)].
Proof. cbv zeta. repeat split. Qed.

(** ** Sub-agent sessions *)

Lemma logActivity_keeps_sessions (p : LogActivityParams.t) (w : World) :
  sessions (store (snd (logActivity p w))) = sessions (store w)
  /\ dedupOnPost (store (snd (logActivity p w))) = dedupOnPost (store w).
Proof.
  destruct (logActivity_effect p w) as (_ & S & _). rewrite S.
  destruct (hd false (faults w)); split; reflexivity.
Qed.

Lemma active_sessions_same (taskId : string) (st st' : Store) :
  sessions st' = sessions st ->
  active_sessions_of taskId st' = active_sessions_of taskId st.
Proof. unfold active_sessions_of, sessions_of. now intros ->. Qed.

Lemma spawnSubAgent_reuses (params : SpawnSubAgentParams.t) (w : World)
    (newest : Session.t) (others : list Session.t) :
  hd false (faults w) = false ->
  active_sessions_of (SpawnSubAgentParams.taskId params) (store w) = newest :: others ->
  fst (spawnSubAgent params w)
    = Returned {| sr_sessionId := Session.openclaw_session_id newest; reused := true |}
  /\ sessions (store (snd (spawnSubAgent params w))) = sessions (store w)
  /\ faults (snd (spawnSubAgent params w)) = tl (tl (faults w))
  /\ existsb registers_session (requests (snd (spawnSubAgent params w)))
     = existsb registers_session (requests w).
Proof.
  intros Hf Ha. unfold spawnSubAgent, bind. rewrite apiGet_run. cbv zeta.
  rewrite Hf. unfold route_get_subagent.
  change (filter is_active (sessions_of (SpawnSubAgentParams.taskId params) (store w)))
    with (active_sessions_of (SpawnSubAgentParams.taskId params) (store w)).
  rewrite Ha. cbn [console_write].
  match goal with |- context [logActivity ?p ?x] =>
    destruct (logActivity_effect p x) as (R & _ & F & Q & _);
    destruct (logActivity_keeps_sessions p x) as [S _];
    destruct (logActivity p x) as [o w'] end.
  cbn [fst snd store faults requests answered] in R, S, F, Q. subst o.
  cbn [ret fst snd]. rewrite S, F, Q. repeat split.
  rewrite !existsb_app. cbn. now rewrite !orb_false_r.
Qed.





(** ** Completing a sub-agent *)

Lemma served_step (n : nat) (w w1 : World) :
  served (S n) w = true ->
  faults w1 = tl (faults w) ->
  hd false (faults w) = false /\ served n w1 = true.
Proof.
  unfold served. intros H ->. destruct (faults w) as [|b fs]; simpl in *.
  - split; [reflexivity|]. now rewrite firstn_nil.
  - apply andb_prop in H as [Hb Hfs]. split; [now destruct b | exact Hfs].
Qed.

Lemma register_all (env : Env) (taskId : string) (items : list DeliverableItem.t)
    (w : World) :
  let r := Promise_all (map (fun d => logDeliverable env (item_params taskId d)) items) w in
  fst r = Returned tt
  /\ sessions (store (snd r)) = sessions (store w)
  /\ activities (store (snd r)) = activities (store w)
  /\ requests (snd r)
     = requests w ++ map (fun d => deliverable_request (item_params taskId d)) items
  /\ (served (length items) w = true ->
      map deliverable_content (deliverables (store (snd r)))
      = map deliverable_content (deliverables (store w))
          ++ map (item_content taskId) items).
Proof.
  cbv zeta. revert w. induction items as [|d items IH]; intros w.
  - cbn. rewrite !app_nil_r. repeat split.
  - cbn [map Promise_all length].
    destruct (logDeliverable_effect env (item_params taskId d) w) as (R & S & F & Q & _).
    destruct (logDeliverable env (item_params taskId d) w) as [o w1].
    cbn [fst snd] in R, S, F, Q. subst o.
    destruct (IH w1) as (R' & S' & A' & Q' & D').
    rewrite R', S', A', Q', Q, S, <- app_assoc.
    split; [reflexivity|].
    split; [now destruct (hd false (faults w))|].
    split; [now destruct (hd false (faults w))|].
    split; [reflexivity|].
    intros Hs. destruct (served_step _ w w1 Hs F) as [F0 Hs1].
    rewrite (D' Hs1), S, F0. cbn. rewrite map_app, <- app_assoc. reflexivity.
Qed.

Lemma finished_sessions (sessionId at_ : string) (l : list Session.t) :
  let l' := map (fun s => if names_session sessionId s
                          then Session.finish "completed" at_ s else s) l in
  (existsb (names_session sessionId) l = true ->
   existsb (names_session sessionId) l' = true)
  /\ (forall s, In s l' -> names_session sessionId s = true ->
      Session.status s = "completed" /\ Session.ended_at s = Some at_)
  /\ (forall taskId,
      forallb (names_session sessionId)
        (filter is_active (filter (fun s => Session.task_id s =? taskId) l)) = true ->
      filter is_active (filter (fun s => Session.task_id s =? taskId) l') = []).
Proof.
  cbv zeta. repeat split.
  - induction l as [|x l IH]; cbn [map existsb]; [discriminate|].
    destruct (names_session sessionId x) eqn:E.
    + intros _. unfold names_session at 1. cbn. unfold names_session in E.
      now rewrite E.
    + rewrite E. exact IH.
  - apply in_map_iff in H as (x & <- & _).
    destruct (names_session sessionId x) eqn:E; [reflexivity | congruence].
  - apply in_map_iff in H as (x & <- & _).
    destruct (names_session sessionId x) eqn:E; [reflexivity | congruence].
  - intros taskId. induction l as [|x l IH]; cbn [map filter]; [reflexivity|].
    destruct (names_session sessionId x) eqn:E.
    + change (Session.task_id (Session.finish "completed" at_ x))
        with (Session.task_id x).
      destruct (Session.task_id x =? taskId)%string; cbn [filter].
      * change (is_active (Session.finish "completed" at_ x)) with false. cbn iota.
        destruct (is_active x); cbn [forallb]; [rewrite E|]; auto.
      * exact IH.
    + destruct (Session.task_id x =? taskId)%string; cbn [filter]; [|exact IH].
      destruct (is_active x); cbn [forallb]; [rewrite E; discriminate | exact IH].
Qed.


(** The call succeeds exactly when the session exists and the store serves
    the request that completes it; the other writes cannot make it fail. *)
Lemma completeSubAgent_returns (env : Env) (params : CompleteSubAgentParams.t)
    (w : World) :
  fst (completeSubAgent env params w) = Returned tt
  <-> hd false (tl (faults w)) = false
      /\ existsb (names_session (CompleteSubAgentParams.sessionId params))
           (sessions (store w)) = true.
Proof.
  unfold completeSubAgent, bind, toISOString.
  cbn [app Promise_all].
  fold (completion_params params).
  destruct (logActivity_effect (completion_params params) w) as (R & S & F & _).
  destruct (logActivity (completion_params params) w) as [o w1].
  cbn [fst snd] in R, S, F. subst o.
  assert (Sw1 : sessions (store w1) = sessions (store w))
    by (rewrite S; now destruct (hd false (faults w))).
  unfold apiPatch. rewrite api_run. cbv zeta. rewrite F, <- Sw1.
  destruct (hd false (tl (faults w))).
  - cbn [fst]. split; [discriminate | intros [? _]; discriminate].
  - unfold route_patch_session.
    destruct (existsb (names_session (CompleteSubAgentParams.sessionId params))
                (sessions (store w1))); cbn [fst snd].
    + match goal with |- context [Promise_all ?l ?x] =>
        destruct (Promise_all l x) as [o w3] eqn:P end.
      assert (o = Returned tt).
      { destruct (CompleteSubAgentParams.deliverables params) as [ds|].
        - match type of P with Promise_all _ ?x = _ =>
            destruct (register_all env (CompleteSubAgentParams.taskId params) ds x)
              as (R3 & _) end.
          cbv zeta in R3. unfold item_params in R3. rewrite P in R3. exact R3.
        - cbn in P. now injection P as <- _. }
      subst o. cbn [fst]. split; auto.
    + split; [discriminate | intros [_ ?]; discriminate].
Qed.



(** * Further properties of the module *)

(** ** The lifecycle as an order *)

Lemma indexOf_upper (l : list string) (x : string) :
  (indexOf l x < Z.of_nat (length l))%Z.
Proof.
  induction l as [|y l IH]; cbn [indexOf length]; [lia|].
  destruct (String.eqb y x); [lia|].
  destruct (Z.eqb_spec (indexOf l x) (-1)); lia.
Qed.

Lemma indexOf_absent (l : list string) (x : string) :
  ~ In x l -> indexOf l x = (-1)%Z.
Proof.
  induction l as [|y l IH]; cbn [indexOf In]; [reflexivity|].
  intros H. destruct (String.eqb_spec y x) as [->|ne]; [elim H; now left|].
  rewrite IH by tauto. reflexivity.
Qed.

Lemma isValidTransition_true_iff (from to : string) :
  isValidTransition from to = true
  <-> (0 <= indexOf STATUS_ORDER from < indexOf STATUS_ORDER to)%Z.
Proof.
  split; [|apply isValidTransition_later].
  unfold isValidTransition.
  pose proof (indexOf_lower STATUS_ORDER from).
  pose proof (indexOf_lower STATUS_ORDER to).
  destruct (Z.eqb_spec (indexOf STATUS_ORDER from) (-1)); [discriminate|].
  destruct (Z.eqb_spec (indexOf STATUS_ORDER to) (-1)); [discriminate|].
  cbn [orb]. intros G. apply Z.gtb_lt in G. lia.
Qed.

(** X1.  [isValidTransition] is a strict order on all strings: no status may
    move to itself, a valid move cannot be undone by a valid move, and two
    valid moves in a row amount to a valid move. *)
Theorem isValidTransition_strict_order :
  (forall s, isValidTransition s s = false)
  /\ (forall a b, isValidTransition a b = true -> isValidTransition b a = false)
  /\ (forall a b c, isValidTransition a b = true -> isValidTransition b c = true ->
      isValidTransition a c = true).
Proof.
  repeat split.
  - intros s. apply isValidTransition_not_later. lia.
  - intros a b H. apply isValidTransition_true_iff in H.
    apply isValidTransition_not_later. lia.
  - intros a b c H1 H2. apply isValidTransition_true_iff in H1, H2.
    apply isValidTransition_true_iff. lia.
Qed.

Lemma isValidTransition_strict_order_sample :
  isValidTransition "review" "assigned" = false
  /\ isValidTransition "assigned" "done" = true.
Proof.
  destruct isValidTransition_strict_order as (_ & A & T). split.
  - apply (A "assigned" "review"). reflexivity.
  - apply (T "assigned" "review" "done"); reflexivity.
Defined.

(** X2.  The ends of the lifecycle: nothing may leave [done], nothing may
    enter [inbox], and a status that is not one of the six (such as
    planning) is refused both as the current status and as the target. *)
Theorem isValidTransition_ends :
  (forall to, isValidTransition "done" to = false)
  /\ (forall from, isValidTransition from "inbox" = false)
  /\ (forall s other, ~ In s STATUS_ORDER ->
      isValidTransition s other = false /\ isValidTransition other s = false).
Proof.
  assert (D : indexOf STATUS_ORDER "done" = 5%Z) by reflexivity.
  assert (I : indexOf STATUS_ORDER "inbox" = 0%Z) by reflexivity.
  repeat split.
  - intros to. apply isValidTransition_not_later. rewrite D.
    pose proof (indexOf_upper STATUS_ORDER to) as U.
    change (Z.of_nat (length STATUS_ORDER)) with 6%Z in U. lia.
  - intros from. destruct (isValidTransition from "inbox") eqn:E; [|reflexivity].
    apply isValidTransition_true_iff in E. rewrite I in E. lia.
  - destruct (isValidTransition s other) eqn:E; [|reflexivity].
    apply isValidTransition_true_iff in E. rewrite (indexOf_absent _ _ H) in E. lia.
  - destruct (isValidTransition other s) eqn:E; [|reflexivity].
    apply isValidTransition_true_iff in E. rewrite (indexOf_absent _ _ H) in E. lia.
Qed.

Lemma isValidTransition_ends_sample :
  isValidTransition "planning" "inbox" = false
  /\ isValidTransition "inbox" "planning" = false.
Proof.
  destruct isValidTransition_ends as (_ & _ & U).
  apply (U "planning" "inbox").
  cbn [In STATUS_ORDER]. intros H.
  repeat (destruct H as [H|H]; [discriminate H|]). exact H.
Defined.

(** ** More on the path sandbox *)

Lemma prefix_trans (a b c : string) :
  String.prefix a b = true -> String.prefix b c = true -> String.prefix a c = true.
Proof.
  revert b c. induction a as [|x a IH]; intros b c; [now destruct c|].
  destruct b as [|y b]; [discriminate|]. destruct c as [|z c]; [discriminate|].
  cbn [String.prefix].
  destruct (ascii_dec x y) as [->|]; [|discriminate].
  destruct (ascii_dec y z) as [->|]; [|discriminate].
  destruct (ascii_dec z z) as [_|ne]; [apply IH | now elim ne].
Qed.

Lemma safePath_prefix (env : Env) (candidate taskId : string) :
  startsWith (safePath env candidate taskId) (resolvedBase env) = true.
Proof.
  unfold safePath.
  destruct (startsWith (replaceLeadingTilde candidate (homeDir env)) (resolvedBase env))
    eqn:E; [exact E | apply startsWith_app].
Qed.

Lemma absolute_is_plain (s : string) :
  startsWith s "/" = true -> startsWith s "~" = false.
Proof.
  destruct s as [|c s]; [discriminate|]. unfold startsWith. cbn [String.prefix].
  destruct (ascii_dec "/" c) as [<-|]; [|discriminate]. reflexivity.
Qed.

(** X3.  When the root is an absolute path, [safePath] is idempotent: a path
    it has returned is returned unchanged when it is passed in again. *)
Theorem safePath_idempotent (env : Env) (candidate taskId : string) :
  startsWith (resolvedBase env) "/" = true ->
  safePath env (safePath env candidate taskId) taskId = safePath env candidate taskId.
Proof.
  intros Habs.
  pose proof (safePath_prefix env candidate taskId) as P.
  set (r := safePath env candidate taskId) in *.
  assert (Hr : startsWith r "/" = true)
    by (unfold startsWith in *; eapply prefix_trans; eassumption).
  unfold safePath at 1.
  rewrite (replaceLeadingTilde_plain _ _ (absolute_is_plain _ Hr)).
  now rewrite P.
Qed.

Lemma safePath_idempotent_sample :
  safePath Sample.env (safePath Sample.env "~/../etc" "T1") "T1"
  = safePath Sample.env "~/../etc" "T1".
Proof. apply safePath_idempotent. reflexivity. Defined.

(** ** More on status transitions *)

Lemma advances_refl (st st' : Store) : tasks st' = tasks st -> advances st st'.
Proof.
  intros E k t H. exists t. split; [|now left].
  unfold find_task in *. now rewrite E.
Qed.

Lemma find_status_update_cases (l : list Task.t) (taskId s k : string) (t : Task.t) :
  find (fun x => Task.id x =? k) l = Some t ->
  exists t',
    find (fun x => Task.id x =? k)
         (map (fun x => if Task.id x =? taskId then Task.with_status s x else x) l)
    = Some t'
    /\ (t' = t \/ (k = taskId /\ t' = Task.with_status s t)).
Proof.
  induction l as [|a l IH]; cbn [find map]; [discriminate|].
  destruct (Task.id a =? k) eqn:E.
  - intros [= ->]. destruct (String.eqb_spec (Task.id t) taskId) as [Et|ne].
    + exists (Task.with_status s t). cbn. rewrite E. split; [reflexivity|].
      right. split; [|reflexivity]. apply String.eqb_eq in E. congruence.
    + exists t. rewrite E. split; [reflexivity | now left].
  - intros H. destruct (IH H) as (t' & F & C). exists t'. split; [|exact C].
    destruct (Task.id a =? taskId); cbn; now rewrite E.
Qed.

Ltac store_untouched :=
  do 3 (split; [reflexivity|]); left; split; [reflexivity | eexists; reflexivity].

(** What a status transition can do to the store: nothing, and then it has
    thrown; or move the task it read to the target, which the lifecycle
    allows after the status read. *)
Lemma transitionStatus_outcomes (taskId to : string) (agentId : option string)
    (w : World) :
  let r := transitionStatus taskId to agentId w in
  sessions (store (snd r)) = sessions (store w)
  /\ activities (store (snd r)) = activities (store w)
  /\ deliverables (store (snd r)) = deliverables (store w)
  /\ ((tasks (store (snd r)) = tasks (store w) /\ exists e, fst r = Thrown e)
      \/ exists t,
           find_task taskId (store w) = Some t
           /\ isValidTransition (Task.status t) to = true
           /\ fst r = Returned (Task.with_status to t)
           /\ tasks (store (snd r))
              = map (fun x => if Task.id x =? taskId then Task.with_status to x else x)
                    (tasks (store w))).
Proof.
  cbv zeta. unfold transitionStatus, bind. rewrite apiGet_run. cbv zeta.
  destruct (hd false (faults w)); [store_untouched|].
  unfold route_get_task.
  destruct (find_task taskId (store w)) as [t|] eqn:Ht;
    [|store_untouched].
  destruct (isValidTransition (Task.status t) to) eqn:V; cbn [negb];
    [|store_untouched].
  unfold apiPatch. rewrite api_run. cbv zeta.
  match goal with |- context [hd false (faults ?x)] =>
    destruct (hd false (faults x)); [store_untouched|] end.
  unfold route_patch_task. cbn [store answered]. rewrite Ht.
  destruct (is_backward (Task.status t) to); [store_untouched|].
  match goal with |- context [if ?b then (NotOk 403 _, _) else _] =>
    destruct b; [store_untouched|] end.
  do 3 (split; [reflexivity|]). right. exists t. repeat split. exact V.
Qed.

Lemma transitionStatus_advances (taskId to : string) (agentId : option string)
    (w : World) :
  advances (store w) (store (snd (transitionStatus taskId to agentId w))).
Proof.
  destruct (transitionStatus_outcomes taskId to agentId w)
    as (_ & _ & _ & [[E _] | (t & Ht & V & _ & E)]); cbv zeta in *.
  - now apply advances_refl.
  - intros k t0 H. unfold find_task in *. rewrite E.
    destruct (find_status_update_cases _ taskId to k t0 H) as (t' & F & [->|[-> ->]]).
    + exists t0. split; [exact F | now left].
    + exists (Task.with_status to t0). split; [exact F|]. right.
      rewrite Ht in H. injection H as <-. exact V.
Qed.

(** X4.  Whatever the store answers, none of [transitionStatus], [startWork]
    and [moveToReview] makes a task disappear or takes a task's status
    backwards: after the call every task is at the status it had or at one
    the lifecycle allows after it. *)
Theorem status_only_advances (taskId to : string) (agentId : option string)
    (w : World) :
  advances (store w) (store (snd (transitionStatus taskId to agentId w)))
  /\ advances (store w) (store (snd (startWork taskId w)))
  /\ advances (store w) (store (snd (moveToReview taskId w))).
Proof.
  split; [apply transitionStatus_advances|]. split.
  - unfold startWork, bind. rewrite apiGet_run. cbv zeta.
    destruct (hd false (faults w)); [now apply advances_refl|].
    destruct (route_get_task taskId (store w)) as [t|]; [|now apply advances_refl].
    destruct (Task.status t =? "in_progress"); [now apply advances_refl|].
    destruct (negb (Task.status t =? "assigned")); [now apply advances_refl|].
    match goal with |- context [transitionStatus ?a ?b ?c ?x] =>
      pose proof (transitionStatus_advances a b c x) as A;
      destruct (transitionStatus a b c x) as [[t'|e] w2] end; exact A.
  - unfold moveToReview, bind.
    destruct (getDeliverables_returns taskId w) as (ds & G & S1).
    destruct (getDeliverables taskId w) as [o w1]. cbn [fst snd] in G, S1. subst o.
    destruct (length ds =? 0)%nat;
      [cbn [throw snd]; apply advances_refl; now rewrite S1|].
    rewrite <- S1. apply transitionStatus_advances.
Qed.

Lemma transitionStatus_run_forward (taskId to : string) (agentId : option string)
    (w : World) (t : Task.t) :
  served 2 w = true ->
  find_task taskId (store w) = Some t ->
  isValidTransition (Task.status t) to = true ->
  to <> "done" ->
  transitionStatus taskId to agentId w
  = (Returned (Task.with_status to t),
     answered
       (answered w (store w)
          {| req_method := GET; req_path := task_path taskId; req_body := None |})
       (set_tasks
          (map (fun x => if Task.id x =? taskId then Task.with_status to x else x)
               (tasks (store w)))
          (store w))
       {| req_method := PATCH; req_path := task_path taskId;
          req_body := Some (StatusBody to (if truthy agentId then agentId else None)) |}).
Proof.
  intros Hs Ht V Hd.
  apply served_next in Hs as [F1 Hs].
  unfold transitionStatus, bind. rewrite apiGet_run. cbv zeta. rewrite F1.
  unfold route_get_task. rewrite Ht, V. cbn [negb].
  unfold apiPatch. rewrite api_run. cbv zeta.
  match goal with |- context [hd false (faults ?x)] =>
    match x with answered w ?st ?q => specialize (Hs st q) end;
    apply served_next in Hs as [F2 _]; rewrite F2 end.
  unfold route_patch_task. cbn [store answered]. rewrite Ht.
  apply isValidTransition_true_iff in V.
  rewrite is_backward_forward by lia.
  destruct (String.eqb_spec to "done") as [->|_]; [now elim Hd|].
  reflexivity.
Qed.

(** X5.  A forward move goes through: with the task at a status of the
    lifecycle, a target strictly later and other than done, and the store
    serving both requests, [transitionStatus] returns the task at the
    target, the store holds it at the target, and the update it sent names
    an agent exactly when a non-empty agent id was given. *)
Theorem transitionStatus_forward (taskId to : string) (agentId : option string)
    (w : World) (t : Task.t) :
  served 2 w = true ->
  find_task taskId (store w) = Some t ->
  isValidTransition (Task.status t) to = true ->
  to <> "done" ->
  let r := transitionStatus taskId to agentId w in
  fst r = Returned (Task.with_status to t)
  /\ find_task taskId (store (snd r)) = Some (Task.with_status to t)
  /\ requests (snd r)
     = requests w
         ++ [{| req_method := GET; req_path := task_path taskId; req_body := None |};
             {| req_method := PATCH; req_path := task_path taskId;
                req_body := Some (StatusBody to (if truthy agentId then agentId
                                                 else None)) |}].
Proof.
  intros Hs Ht V Hd. cbv zeta.
  rewrite (transitionStatus_run_forward taskId to agentId w t Hs Ht V Hd).
  cbn [fst snd]. repeat split.
  - unfold find_task, set_tasks. cbn [store answered tasks].
    now apply find_status_updated.
  - cbn [requests answered]. now rewrite <- app_assoc.
Qed.

Lemma transitionStatus_forward_sample :
  let w := Sample.world (Sample.mkStore [Sample.task "T1" "in_progress"] [] [] []) [] in
  fst (transitionStatus "T1" "testing" None w) = Returned (Sample.task "T1" "testing").
Proof.
  cbv zeta.
  apply (transitionStatus_forward "T1" "testing" None
           (Sample.world (Sample.mkStore [Sample.task "T1" "in_progress"] [] [] []) [])
           (Sample.task "T1" "in_progress")).
  - reflexivity.
  - reflexivity.
  - reflexivity.
  - discriminate.
Defined.

Lemma status_only_advances_sample :
  let w := Sample.world (Sample.mkStore [Sample.task "T3" "review"] [] [] []) [] in
  exists t', find_task "T3" (store (snd (transitionStatus "T3" "assigned" None w)))
             = Some t'
             /\ (Task.status t' = "review"
                 \/ isValidTransition "review" (Task.status t') = true).
Proof.
  cbv zeta.
  destruct (status_only_advances "T3" "assigned" None
              (Sample.world (Sample.mkStore [Sample.task "T3" "review"] [] [] []) []))
    as [A _].
  apply (A "T3" (Sample.task "T3" "review")). reflexivity.
Defined.

(** ** Starting work *)

Lemma startWork_run (taskId : string) (w : World) (t : Task.t) :
  hd false (faults w) = false ->
  find_task taskId (store w) = Some t ->
  let w1 := answered w (store w)
              {| req_method := GET; req_path := task_path taskId; req_body := None |} in
  startWork taskId w
  = if Task.status t =? "in_progress" then (Returned None, w1)
    else if Task.status t =? "assigned" then
      match transitionStatus taskId "in_progress" None w1 with
      | (Returned t', w2) => (Returned (Some t'), w2)
      | (Thrown e, w2) => (Thrown e, w2)
      end
    else (Thrown (CannotStartWork (Task.status t)), w1).
Proof.
  intros F Ht. cbv zeta. unfold startWork, bind. rewrite apiGet_run. cbv zeta.
  rewrite F. unfold route_get_task. rewrite Ht.
  destruct (Task.status t =? "in_progress"); [reflexivity|].
  destruct (Task.status t =? "assigned"); reflexivity.
Qed.

(** X6.  [startWork] on a task that is neither assigned nor in progress
    throws an error that names the status found; on a task already in
    progress it returns null.  Either way the one request it has sent is
    the GET of the task, and the store is as before. *)
Theorem startWork_leaves_other_statuses (taskId : string) (w : World) (t : Task.t) :
  hd false (faults w) = false ->
  find_task taskId (store w) = Some t ->
  Task.status t <> "assigned" ->
  startWork taskId w
  = (if Task.status t =? "in_progress" then Returned None
     else Thrown (CannotStartWork (Task.status t)),
     answered w (store w)
       {| req_method := GET; req_path := task_path taskId; req_body := None |}).
Proof.
  intros F Ht Hne. rewrite (startWork_run taskId w t F Ht). cbv zeta.
  destruct (Task.status t =? "in_progress"); [reflexivity|].
  destruct (String.eqb_spec (Task.status t) "assigned"); [contradiction | reflexivity].
Qed.

Lemma startWork_leaves_other_statuses_sample :
  let w := Sample.world (Sample.mkStore [Sample.task "T1" "testing"] [] [] []) [] in
  fst (startWork "T1" w) = Thrown (CannotStartWork "testing")
  /\ store (snd (startWork "T1" w)) = store w.
Proof.
  cbv zeta.
  rewrite (startWork_leaves_other_statuses "T1"
             (Sample.world (Sample.mkStore [Sample.task "T1" "testing"] [] [] []) [])
             (Sample.task "T1" "testing") eq_refl eq_refl);
    [split; reflexivity | discriminate].
Defined.

(** X7.  [startWork] on an assigned task, the store serving its three
    requests, returns the task in progress and leaves it in progress in the
    store; a second call, its request served, returns null and changes
    nothing. *)
Theorem startWork_then_again (taskId : string) (w : World) (t : Task.t) :
  served 4 w = true ->
  find_task taskId (store w) = Some t ->
  Task.status t = "assigned" ->
  let first := startWork taskId w in
  let second := startWork taskId (snd first) in
  fst first = Returned (Some (Task.with_status "in_progress" t))
  /\ find_task taskId (store (snd first)) = Some (Task.with_status "in_progress" t)
  /\ fst second = Returned None
  /\ store (snd second) = store (snd first).
Proof.
  intros Hs Ht Ha. cbv zeta.
  pose proof Hs as Hs0. apply served_next in Hs as [F1 Hs].
  rewrite (startWork_run taskId w t F1 Ht). cbv zeta. rewrite Ha.
  change ("assigned" =? "in_progress") with false.
  change ("assigned" =? "assigned") with true. cbn iota.
  match goal with |- context [transitionStatus _ _ _ ?x] =>
    match x with answered w ?st ?q => specialize (Hs st q) end;
    rewrite (transitionStatus_run_forward taskId "in_progress" None x t) end.
  - cbn [fst snd].
    assert (Hf : find_task taskId
                   (set_tasks
                      (map (fun x => if Task.id x =? taskId
                                     then Task.with_status "in_progress" x else x)
                           (tasks (store w))) (store w))
                 = Some (Task.with_status "in_progress" t)).
    { unfold find_task, set_tasks. cbn [tasks]. now apply find_status_updated. }
    split; [reflexivity|]. split; [exact Hf|].
    match goal with |- context [startWork taskId ?x] =>
      rewrite (startWork_run taskId x (Task.with_status "in_progress" t)) end.
    + cbv zeta. cbn [Task.status Task.with_status].
      change ("in_progress" =? "in_progress") with true. cbn iota. split; reflexivity.
    + cbn [faults answered].
      unfold served in Hs0. destruct (faults w) as [|b0 [|b1 [|b2 [|b3 fs]]]];
        try reflexivity. cbn in Hs0. cbn.
      destruct b3; [|reflexivity].
      now rewrite !andb_false_r in Hs0.
    + exact Hf.
  - unfold served in *. cbn [faults answered] in *.
    destruct (faults w) as [|b0 [|b1 [|b2 fs]]]; try reflexivity; cbn in Hs |- *.
    + exact Hs.
    + apply andb_prop in Hs as [H1 Hs]. apply andb_prop in Hs as [H2 _].
      now rewrite H1, H2.
  - exact Ht.
  - rewrite Ha. reflexivity.
  - discriminate.
Qed.

Lemma startWork_then_again_sample :
  let w := Sample.world (Sample.mkStore [Sample.task "T1" "assigned"] [] [] []) [] in
  fst (startWork "T1" w) = Returned (Some (Sample.task "T1" "in_progress"))
  /\ fst (startWork "T1" (snd (startWork "T1" w))) = Returned None.
Proof.
  cbv zeta.
  destruct (startWork_then_again "T1"
              (Sample.world (Sample.mkStore [Sample.task "T1" "assigned"] [] [] []) [])
              (Sample.task "T1" "assigned") eq_refl eq_refl eq_refl) as (A & _ & B & _).
  split; assumption.
Defined.

(** ** More on preflight *)

Lemma some_active (l : list Session.t) :
  (0 <? length (filter is_active l))%nat = existsb is_active l.
Proof.
  induction l as [|x l IH]; cbn [filter existsb]; [reflexivity|].
  destruct (is_active x); [reflexivity | exact IH].
Qed.

Ltac known_status :=
  repeat match goal with
         | H : (_ =? _) = true |- _ => apply String.eqb_eq in H; rewrite H in *
         end.

Lemma preflight_returned (env : Env) (taskId : string) (dir : option string)
    (w w' : World) (r : PreflightResult) :
  preflight env taskId dir w = (Returned r, w') ->
  exists t,
    find_task taskId (store w) = Some t
    /\ w' = answered
              (answered w (store w)
                 {| req_method := GET; req_path := task_path taskId; req_body := None |})
              (store w)
              {| req_method := GET; req_path := subagent_path taskId; req_body := None |}
    /\ pf_task r = t
    /\ pf_status r = Task.status t
    /\ existingSessions r = sessions_of taskId (store w)
    /\ hasActiveSession r = existsb is_active (sessions_of taskId (store w))
    /\ canStart r = ((Task.status t =? "assigned") || (Task.status t =? "in_progress"))
    /\ (reason r = None <-> ~ In (Task.status t) STATUS_ORDER).
Proof.
  unfold preflight, bind. rewrite apiGet_run. cbv zeta.
  destruct (hd false (faults w)); [discriminate|].
  unfold route_get_task.
  destruct (find_task taskId (store w)) as [t|]; [|discriminate].
  rewrite apiGet_run. cbv zeta.
  match goal with |- context [hd false (faults ?x)] =>
    destruct (hd false (faults x)); [discriminate|] end.
  unfold route_get_subagent. cbn [store answered]. rewrite some_active.
  destruct (Task.status t =? "inbox") eqn:E1;
    [|destruct (Task.status t =? "assigned") eqn:E2;
      [|destruct (Task.status t =? "in_progress") eqn:E3;
        [|destruct (Task.status t =? "testing") eqn:E4;
          [|destruct (Task.status t =? "review") eqn:E5;
            [|destruct (Task.status t =? "done") eqn:E6]]]]];
    intros [= <- <-]; exists t; cbn [pf_task pf_status existingSessions
      hasActiveSession canStart reason]; do 6 (split; [reflexivity|]);
    (split; [known_status;
             repeat match goal with
                    | H : (_ =? _) = false |- _ => rewrite H
                    end; reflexivity|]).
  1-6: known_status; split; [discriminate|]; intros H; exfalso; apply H;
    cbn [In STATUS_ORDER]; repeat (first [left; reflexivity | right]).
  split; [intros _ H | reflexivity].
  cbn [In STATUS_ORDER] in H.
  repeat (destruct H as [H|H]; [rewrite <- H in *; discriminate|]). exact H.
Qed.

(** X8.  [preflight] only reads: whatever the store answers and whether it
    returns or throws, the store and the console are as before and it has
    sent at most two requests, both GETs.  When the task does not exist it
    throws the 404 of the task request and asks nothing further. *)
Theorem preflight_only_reads (env : Env) (taskId : string) (dir : option string)
    (w : World) :
  let r := preflight env taskId dir w in
  (store (snd r) = store w
   /\ console (snd r) = console w
   /\ exists sent, requests (snd r) = requests w ++ sent
                   /\ forallb is_read sent = true
                   /\ length sent <= 2)
  /\ (hd false (faults w) = false ->
      find_task taskId (store w) = None ->
      r = (Thrown (HttpError GET (task_path taskId) 404 "Task not found"),
           answered w (store w)
             {| req_method := GET; req_path := task_path taskId; req_body := None |})).
Proof.
  cbv zeta. split.
  - unfold preflight, bind. rewrite apiGet_run. cbv zeta.
    assert (One : forall q : Request,
              is_read q = true ->
              let w1 := answered w (store w) q in
              store w1 = store w /\ console w1 = console w
              /\ exists sent, requests w1 = requests w ++ sent
                              /\ forallb is_read sent = true /\ length sent <= 2).
    { intros q Hq. cbv zeta. do 2 (split; [reflexivity|]). exists [q].
      split; [reflexivity|]. split; [cbn; now rewrite Hq | cbn; lia]. }
    assert (Two : forall (q1 q2 : Request),
              is_read q1 = true -> is_read q2 = true ->
              let w2 := answered (answered w (store w) q1) (store w) q2 in
              store w2 = store w /\ console w2 = console w
              /\ exists sent, requests w2 = requests w ++ sent
                              /\ forallb is_read sent = true /\ length sent <= 2).
    { intros q1 q2 H1 H2. cbv zeta. do 2 (split; [reflexivity|]). exists [q1; q2].
      split; [cbn; now rewrite <- app_assoc|].
      split; [cbn; now rewrite H1, H2 | cbn; lia]. }
    destruct (hd false (faults w));
      [apply One; reflexivity|].
    destruct (route_get_task taskId (store w)) as [t|];
      [|apply One; reflexivity].
    rewrite apiGet_run. cbv zeta.
    match goal with |- context [hd false (faults ?x)] =>
      destruct (hd false (faults x)); [apply Two; reflexivity|] end.
    unfold route_get_subagent.
    repeat match goal with |- context [if ?b then _ else _] => destruct b end;
      apply Two; reflexivity.
  - intros F Hn. unfold preflight, bind. rewrite apiGet_run. cbv zeta.
    rewrite F. unfold route_get_task. rewrite Hn. reflexivity.
Qed.

Lemma preflight_only_reads_sample :
  let w := Sample.world (Sample.mkStore [Sample.task "T1" "assigned"] [] [] []) [] in
  fst (preflight Sample.env "T9" None w)
  = Thrown (HttpError GET "/api/tasks/T9" 404 "Task not found").
Proof.
  cbv zeta.
  destruct (preflight_only_reads Sample.env "T9" None
              (Sample.world (Sample.mkStore [Sample.task "T1" "assigned"] [] [] []) []))
    as [_ H].
  cbv zeta in H. rewrite (H eq_refl eq_refl). reflexivity.
Defined.

(** X9.  What [preflight] reports is the store's view at the time of the
    call: the status is the task's, [canStart] holds exactly for assigned
    and in_progress, [hasActiveSession] holds exactly when the task has an
    active session, and a reason is given for each of the six statuses of
    the lifecycle (and for no other). *)
Theorem preflight_policy (env : Env) (taskId : string) (dir : option string)
    (w w' : World) (r : PreflightResult) :
  preflight env taskId dir w = (Returned r, w') ->
  option_map Task.status (find_task taskId (store w)) = Some (pf_status r)
  /\ (canStart r = true <-> pf_status r = "assigned" \/ pf_status r = "in_progress")
  /\ (hasActiveSession r = true <-> active_sessions_of taskId (store w) <> [])
  /\ (reason r <> None <-> In (pf_status r) STATUS_ORDER).
Proof.
  intros H. destruct (preflight_returned _ _ _ _ _ _ H)
    as (t & Ht & _ & _ & Hs & _ & Ha & Hc & Hr).
  rewrite Ht, Hs, Hc, Ha. cbn [option_map]. split; [reflexivity|]. split; [|split].
  - rewrite orb_true_iff, !String.eqb_eq. reflexivity.
  - unfold active_sessions_of. clear.
    induction (sessions_of taskId (store w)) as [|x l IH]; cbn [existsb filter].
    + split; [discriminate | intros C; now elim C].
    + destruct (is_active x); cbn [orb]; [split; [discriminate | reflexivity] | exact IH].
  - split.
    + intros Hn. destruct (in_dec string_dec (Task.status t) STATUS_ORDER) as [i|n];
        [exact i | elim Hn; now apply Hr].
    + intros Hi Hn. apply Hr in Hn. contradiction.
Qed.

Lemma preflight_policy_sample :
  let w := Sample.world
             (Sample.mkStore [Sample.task "T1" "assigned"]
                [Sample.session "s1" "T1" "active"] [] []) [] in
  exists r, returned (fst (preflight Sample.env "T1" None w)) = Some r
            /\ pf_status r = "assigned".
Proof.
  cbv zeta. eexists. split; [reflexivity|].
  match goal with |- pf_status ?r = _ => set (rep := r) end.
  destruct (preflight_policy Sample.env "T1" None
              (Sample.world
                 (Sample.mkStore [Sample.task "T1" "assigned"]
                    [Sample.session "s1" "T1" "active"] [] []) [])
              (snd (preflight Sample.env "T1" None
                      (Sample.world
                         (Sample.mkStore [Sample.task "T1" "assigned"]
                            [Sample.session "s1" "T1" "active"] [] []) [])))
              rep eq_refl) as (S & _).
  exact (f_equal (fun o => match o with Some x => x | None => EmptyString end)
                 (eq_sym S)).
Defined.

Lemma default_dir_resolved (pb home rest : string) :
  no_dollar home = true ->
  replaceLeadingTilde (pb ++ String "/" rest) home
  = (replaceLeadingTilde pb home ++ String "/" rest)%string.
Proof.
  intros H. destruct pb as [|c pb]; [reflexivity|].
  cbn [append replaceLeadingTilde].
  destruct (Ascii.eqb c "~"); [|reflexivity].
  rewrite !getSubstitution_plain by exact H.
  clear. induction home as [|h home IH]; cbn [append]; [reflexivity | now rewrite IH].
Qed.

(** X10.  The output directory [preflight] reports always starts with the
    root, whatever the dispatcher supplied.  When the dispatcher supplies
    none (or the empty string) and the home directory has no dollar sign,
    it is root/taskId/. *)
Theorem preflight_outputDir_sandboxed (env : Env) (taskId : string)
    (dir : option string) (w w' : World) (r : PreflightResult) :
  preflight env taskId dir w = (Returned r, w') ->
  startsWith (outputDir r) (resolvedBase env) = true
  /\ (truthy dir = false -> no_dollar (homeDir env) = true ->
      outputDir r = (resolvedBase env ++ "/" ++ taskId ++ "/")%string).
Proof.
  intros H. rewrite (preflight_outputDir _ _ _ _ _ _ H). split.
  - apply safePath_prefix.
  - intros Hd Hh. rewrite Hd. unfold safePath.
    change (PROJECTS_BASE env ++ "/" ++ taskId ++ "/")%string
      with (PROJECTS_BASE env ++ String "/" (taskId ++ "/"))%string.
    rewrite (default_dir_resolved _ _ _ Hh). fold (resolvedBase env).
    now rewrite startsWith_app.
Qed.

Lemma preflight_outputDir_sandboxed_sample :
  let w := Sample.world (Sample.mkStore [Sample.task "T1" "assigned"] [] [] []) [] in
  option_map outputDir (returned (fst (preflight Sample.env "T1" (Some "/etc") w)))
  = Some "/home/chip/projects/T1/"
  /\ exists r, returned (fst (preflight Sample.env "T1" None w)) = Some r
               /\ outputDir r = "/home/chip/projects/T1/".
Proof.
  cbv zeta. split; [reflexivity|]. eexists. split; [reflexivity|].
  match goal with |- outputDir ?r = _ => set (rep := r) end.
  destruct (preflight_outputDir_sandboxed Sample.env "T1" None
              (Sample.world (Sample.mkStore [Sample.task "T1" "assigned"] [] [] []) [])
              (snd (preflight Sample.env "T1" None
                      (Sample.world (Sample.mkStore [Sample.task "T1" "assigned"] [] [] []) [])))
              rep eq_refl) as [_ D].
  rewrite (D eq_refl eq_refl). reflexivity.
Defined.

Lemma startWork_assigned (taskId : string) (w : World) (t : Task.t) :
  served 3 w = true ->
  find_task taskId (store w) = Some t ->
  Task.status t = "assigned" ->
  fst (startWork taskId w) = Returned (Some (Task.with_status "in_progress" t))
  /\ find_task taskId (store (snd (startWork taskId w)))
     = Some (Task.with_status "in_progress" t).
Proof.
  intros Hs Ht Ha. apply served_next in Hs as [F1 Hs].
  rewrite (startWork_run taskId w t F1 Ht). cbv zeta. rewrite Ha.
  change ("assigned" =? "in_progress") with false.
  change ("assigned" =? "assigned") with true. cbn iota.
  match goal with |- context [transitionStatus _ _ _ ?x] =>
    match x with answered w ?st ?q => specialize (Hs st q) end;
    rewrite (transitionStatus_run_forward taskId "in_progress" None x t Hs Ht) end.
  - cbn [fst snd]. split; [reflexivity|].
    unfold find_task, set_tasks. cbn [store answered tasks].
    now apply find_status_updated.
  - rewrite Ha. reflexivity.
  - discriminate.
Qed.

(** X11.  [preflight] and [startWork] agree.  Run right after a preflight
    that returned, the store serving its requests: when [canStart] was true
    [startWork] does not throw and leaves the task in progress; when
    [canStart] was false it throws the error naming the reported status and
    leaves the store alone. *)
Theorem preflight_then_startWork (env : Env) (taskId : string) (dir : option string)
    (w w' : World) (r : PreflightResult) :
  preflight env taskId dir w = (Returned r, w') ->
  served 3 w' = true ->
  (canStart r = true ->
   (exists res, fst (startWork taskId w') = Returned res)
   /\ option_map Task.status (find_task taskId (store (snd (startWork taskId w'))))
      = Some "in_progress")
  /\ (canStart r = false ->
      fst (startWork taskId w') = Thrown (CannotStartWork (pf_status r))
      /\ store (snd (startWork taskId w')) = store w).
Proof.
  intros H Hs.
  destruct (preflight_returned _ _ _ _ _ _ H) as (t & Ht & Hw & _ & Hst & _ & _ & Hc & _).
  assert (Ht' : find_task taskId (store w') = Some t) by (now rewrite Hw).
  assert (Sw : store w' = store w) by (now rewrite Hw).
  pose proof Hs as Hs3. apply served_next in Hs as [F1 _].
  rewrite Hc, Hst. split.
  - intros C. apply orb_true_iff in C as [C|C]; apply String.eqb_eq in C.
    + destruct (startWork_assigned taskId w' t Hs3 Ht' C) as [R F].
      rewrite R, F. split; [eauto | reflexivity].
    + rewrite (startWork_run taskId w' t F1 Ht'). cbv zeta. rewrite C.
      change ("in_progress" =? "in_progress") with true. cbn [fst snd store answered].
      rewrite Ht'. cbn [option_map]. rewrite C. split; [eauto | reflexivity].
  - intros C. apply orb_false_iff in C as [C1 C2].
    rewrite (startWork_run taskId w' t F1 Ht'). cbv zeta. rewrite C1, C2.
    split; [reflexivity | exact Sw].
Qed.

Lemma preflight_then_startWork_sample :
  let w := Sample.world (Sample.mkStore [Sample.task "T1" "assigned"] [] [] []) [] in
  let w' := snd (preflight Sample.env "T1" None w) in
  option_map Task.status (find_task "T1" (store (snd (startWork "T1" w'))))
  = Some "in_progress".
Proof.
  cbv zeta.
  match goal with |- context [startWork "T1" (snd (preflight ?e ?i ?d ?x))] =>
    destruct (preflight_then_startWork e i d x (snd (preflight e i d x))
                (match fst (preflight e i d x) with
                 | Returned r => r
                 | Thrown _ => {| pf_task := Sample.task "" ""; pf_status := "";
                                  outputDir := ""; existingSessions := [];
                                  hasActiveSession := false; canStart := false;
                                  reason := None |}
                 end) eq_refl eq_refl) as [A _]
  end.
  exact (proj2 (A eq_refl)).
Defined.

(** ** More on the recorder *)

(** X12.  [logActivity] is best effort and touches nothing but the activity
    feed: it always returns normally; tasks, sessions and deliverables are
    as before.  When the store serves the request, one activity, carrying
    the given task, type, message, agent and metadata, is added after the
    existing ones; when the store fails, the feed is unchanged and the
    failure is written to the error console. *)
Theorem logActivity_best_effort (p : LogActivityParams.t) (w : World) :
  let w' := snd (logActivity p w) in
  fst (logActivity p w) = Returned tt
  /\ tasks (store w') = tasks (store w)
  /\ sessions (store w') = sessions (store w)
  /\ deliverables (store w') = deliverables (store w)
  /\ (hd false (faults w) = false ->
      console w' = console w
      /\ exists a,
           activities (store w') = activities (store w) ++ [a]
           /\ Activity.task_id a = LogActivityParams.taskId p
           /\ Activity.activity_type a = LogActivityParams.activityType p
           /\ Activity.message a = LogActivityParams.message p
           /\ Activity.agent_id a = LogActivityParams.agentId p
           /\ Activity.metadata a = LogActivityParams.metadata p)
  /\ (hd false (faults w) = true ->
      activities (store w') = activities (store w)
      /\ console w'
         = console w
             ++ [ConsoleError
                   ("Failed to log activity for task "
                      ++ LogActivityParams.taskId p ++ ":")
                   (HttpError POST (activities_path (LogActivityParams.taskId p)) 500
                      "Internal Server Error")]).
Proof.
  cbv zeta. rewrite logActivity_run.
  destruct (hd false (faults w)); cbn [fst snd].
  - do 4 (split; [reflexivity|]). split; [discriminate|]. intros _. split; reflexivity.
  - do 4 (split; [reflexivity|]). split; [|discriminate]. intros _.
    split; [reflexivity|]. eexists. split; [reflexivity|]. repeat split.
Qed.

Lemma logActivity_best_effort_sample :
  let p := {| LogActivityParams.taskId := "T1";
              LogActivityParams.activityType := "updated";
              LogActivityParams.message := "Created main component";
              LogActivityParams.agentId := None;
              LogActivityParams.metadata := None |} in
  let w := Sample.world (Sample.mkStore [Sample.task "T1" "in_progress"] [] [] []) [true] in
  fst (logActivity p w) = Returned tt
  /\ activities (store (snd (logActivity p w))) = [].
Proof.
  cbv zeta.
  match goal with |- fst (logActivity ?p ?x) = _ /\ _ =>
    pose proof (logActivity_best_effort p x) as H end.
  cbv zeta in H. destruct H as (R & _ & _ & _ & _ & F).
  split; [exact R | exact (proj1 (F eq_refl))].
Defined.

Lemma transitionStatus_other_errors (taskId to : string) (agentId : option string)
    (w : World) :
  fst (transitionStatus taskId to agentId w) <> Thrown PreconditionFailed.
Proof.
  unfold transitionStatus, bind. rewrite apiGet_run. cbv zeta.
  destruct (hd false (faults w)); [discriminate|].
  destruct (route_get_task taskId (store w)) as [t|]; [|discriminate].
  destruct (negb (isValidTransition (Task.status t) to)); [discriminate|].
  unfold apiPatch. rewrite api_run. cbv zeta.
  match goal with |- context [hd false (faults ?x)] =>
    destruct (hd false (faults x)); [discriminate|] end.
  match goal with |- context [route_patch_task ?a ?b ?c ?st] =>
    destruct (fst (route_patch_task a b c st)); discriminate end.
Qed.

(** X13.  [verifyTaskHasDeliverables] and the gate of [moveToReview] are one
    and the same: in any world, [moveToReview] throws the precondition
    error exactly when [verifyTaskHasDeliverables] would return false.  A
    store failure on the deliverables read therefore shows as the
    precondition error, with the store untouched, even when deliverables
    are registered. *)
Theorem moveToReview_gate (taskId : string) (w : World) :
  (fst (moveToReview taskId w) = Thrown PreconditionFailed
   <-> fst (verifyTaskHasDeliverables taskId w) = Returned false)
  /\ (hd false (faults w) = true ->
      fst (moveToReview taskId w) = Thrown PreconditionFailed
      /\ store (snd (moveToReview taskId w)) = store w).
Proof.
  unfold moveToReview, verifyTaskHasDeliverables, bind.
  rewrite getDeliverables_run. cbv zeta.
  destruct (hd false (faults w)); cbn [length Nat.eqb Nat.ltb Nat.leb fst snd throw ret].
  - split; [split; reflexivity | intros _; split; reflexivity].
  - split; [|discriminate].
    destruct (deliverables_of taskId (store w)) as [|d ds];
      cbn [length Nat.eqb Nat.ltb Nat.leb fst snd throw ret];
      [split; reflexivity|].
    split; [|discriminate]. intros H.
    now apply transitionStatus_other_errors in H.
Qed.

Lemma moveToReview_gate_sample :
  let w := Sample.world
             (Sample.mkStore [Sample.task "T2" "in_progress"] [] []
                [Sample.deliverable "T2" "/home/chip/projects/T2/report.md"])
             [true] in
  fst (moveToReview "T2" w) = Thrown PreconditionFailed
  /\ store (snd (moveToReview "T2" w)) = store w.
Proof.
  cbv zeta.
  match goal with |- fst (moveToReview ?i ?x) = _ /\ _ =>
    destruct (moveToReview_gate i x) as [_ H] end.
  apply H. reflexivity.
Defined.

(** ** More on sub-agent sessions *)

Lemma spawnSubAgent_run_new (params : SpawnSubAgentParams.t) (w : World) :
  let taskId := SpawnSubAgentParams.taskId params in
  let sessionId := SpawnSubAgentParams.sessionId params in
  let agent := Some (SpawnSubAgentParams.agentName params) in
  hd false (faults w) = false ->
  active_sessions_of taskId (store w) = [] ->
  let w1 := answered w (store w)
              {| req_method := GET; req_path := subagent_path taskId;
                 req_body := None |} in
  let w2 := snd (logActivity (spawned_params params) w1) in
  spawnSubAgent params w
  = if hd false (faults w2) then
      (Thrown (HttpError POST (subagent_path taskId) 500 "Internal Server Error"),
       answered w2 (store w2) (register_request taskId sessionId agent))
    else
      (Returned {| sr_sessionId := sessionId; reused := false |},
       answered w2 (snd (route_post_subagent taskId sessionId agent (store w2)))
         (register_request taskId sessionId agent)).
Proof.
  cbv zeta. intros F Ha. unfold spawnSubAgent, bind. rewrite apiGet_run. cbv zeta.
  rewrite F. unfold route_get_subagent.
  change (filter is_active (sessions_of (SpawnSubAgentParams.taskId params) (store w)))
    with (active_sessions_of (SpawnSubAgentParams.taskId params) (store w)).
  rewrite Ha. cbn [Promise_all]. fold (spawned_params params).
  match goal with |- context [logActivity ?p ?x] =>
    destruct (logActivity_effect p x) as (R & _);
    destruct (logActivity p x) as [o w2] end.
  cbn [fst snd] in R |- *. subst o.
  unfold apiPost. rewrite api_run. cbv zeta.
  destruct (hd false (faults w2)); [reflexivity|].
  unfold route_post_subagent.
  destruct (if dedupOnPost (store w2)
            then active_sessions_of (SpawnSubAgentParams.taskId params) (store w2)
            else []); reflexivity.
Qed.

Lemma completeSubAgent_run (env : Env) (params : CompleteSubAgentParams.t) (w : World) :
  let taskId := CompleteSubAgentParams.taskId params in
  let sessionId := CompleteSubAgentParams.sessionId params in
  let w1 := snd (logActivity (completion_params params) w) in
  let r2 := apiPatch (session_path sessionId) (SessionBody "completed" (now w))
              (route_patch_session sessionId "completed" (now w)) w1 in
  let w3 := snd (Promise_all
                   (map (fun d => logDeliverable env (item_params taskId d))
                        (supplied params))
                   (snd r2)) in
  completeSubAgent env params w
  = (match fst r2 with Returned _ => Returned tt | Thrown e => Thrown e end, w3).
Proof.
  cbv zeta. unfold completeSubAgent, bind, toISOString.
  replace (match CompleteSubAgentParams.deliverables params with
           | Some ds => map _ ds
           | None => []
           end)
    with (map (fun d => logDeliverable env
                          (item_params (CompleteSubAgentParams.taskId params) d))
              (supplied params))
    by (unfold supplied; now destruct (CompleteSubAgentParams.deliverables params)).
  cbn [app Promise_all]. fold (completion_params params).
  destruct (logActivity_effect (completion_params params) w) as (R & _).
  destruct (logActivity (completion_params params) w) as [o w1].
  cbn [fst snd] in R |- *. subst o.
  match goal with |- context [apiPatch ?a ?b ?c w1] =>
    destruct (apiPatch a b c w1) as [[u|e] w2] end; cbn [fst snd].
  - match goal with |- context [Promise_all ?l w2] =>
      pose proof (register_all env (CompleteSubAgentParams.taskId params)
                    (supplied params) w2) as Q;
      cbv zeta in Q; destruct Q as (Q & _);
      destruct (Promise_all l w2) as [o w3] end.
    cbn [fst snd] in Q |- *. now subst o.
  - reflexivity.
Qed.

Lemma spawnSubAgent_new_store (params : SpawnSubAgentParams.t) (w : World) :
  let taskId := SpawnSubAgentParams.taskId params in
  served 3 w = true ->
  active_sessions_of taskId (store w) = [] ->
  exists s a n,
    spawnSubAgent params w
    = (Returned {| sr_sessionId := SpawnSubAgentParams.sessionId params;
                   reused := false |},
       {| store := set_sessions (s :: sessions (store w)) n
                     (post_activity (spawned_params params) (store w));
          faults := tl (tl (tl (faults w)));
          requests := requests w
                        ++ [{| req_method := GET; req_path := subagent_path taskId;
                               req_body := None |};
                            activity_request (spawned_params params);
                            register_request taskId
                              (SpawnSubAgentParams.sessionId params)
                              (Some (SpawnSubAgentParams.agentName params))];
          console := console w; now := now w |})
    /\ Session.openclaw_session_id s = SpawnSubAgentParams.sessionId params
    /\ Session.task_id s = taskId
    /\ Session.status s = "active"
    /\ Session.ended_at s = None
    /\ Session.agent_name s = Some (SpawnSubAgentParams.agentName params)
    /\ activities (post_activity (spawned_params params) (store w))
       = activities (store w) ++ [a]
    /\ Activity.task_id a = taskId
    /\ Activity.activity_type a = "spawned".
Proof.
  cbv zeta. intros Hs Ha.
  destruct (served_step 2 w
              (answered w (store w)
                 {| req_method := GET;
                    req_path := subagent_path (SpawnSubAgentParams.taskId params);
                    req_body := None |}) Hs eq_refl) as [F1 Hs1].
  rewrite (spawnSubAgent_run_new params w F1 Ha). cbv zeta.
  rewrite logActivity_run.
  apply served_next in Hs1 as [F2 Hs2]. rewrite F2. cbn [snd].
  match goal with |- context [hd false (faults ?x)] =>
    match x with answered _ ?st ?q => specialize (Hs2 st q) end;
    apply served_next in Hs2 as [F3 _]; rewrite F3 end.
  unfold route_post_subagent. cbn [store answered].
  rewrite (active_sessions_same _ (store w)) by reflexivity. rewrite Ha.
  assert (E : (if dedupOnPost (post_activity (spawned_params params) (store w))
               then @nil Session.t else []) = []) by (now destruct (dedupOnPost _)).
  rewrite E. cbn [snd].
  eexists. eexists. eexists. split.
  - unfold answered. cbn [store faults requests console now]. rewrite <- !app_assoc.
    reflexivity.
  - repeat split.
Qed.

(** X14.  With no active session for the task and the store serving the three
    requests, [spawnSubAgent] answers the caller's session id with [reused]
    unset and registers it: the task then has exactly one active session,
    carrying that id and the agent's name, and the feed has a spawned
    activity.  A spawn for the same task that follows, its session list
    served, is answered with that same id and [reused] set. *)
Theorem spawnSubAgent_registers (params next : SpawnSubAgentParams.t) (w : World) :
  let taskId := SpawnSubAgentParams.taskId params in
  let w' := snd (spawnSubAgent params w) in
  served 3 w = true ->
  active_sessions_of taskId (store w) = [] ->
  fst (spawnSubAgent params w)
    = Returned {| sr_sessionId := SpawnSubAgentParams.sessionId params;
                  reused := false |}
  /\ (exists s,
        active_sessions_of taskId (store w') = [s]
        /\ Session.openclaw_session_id s = SpawnSubAgentParams.sessionId params
        /\ Session.agent_name s = Some (SpawnSubAgentParams.agentName params))
  /\ existsb (fun a => Activity.activity_type a =? "spawned")
       (activities_of taskId (store w')) = true
  /\ (SpawnSubAgentParams.taskId next = taskId ->
      hd false (faults w') = false ->
      fst (spawnSubAgent next w')
        = Returned {| sr_sessionId := SpawnSubAgentParams.sessionId params;
                      reused := true |}).
Proof.
  cbv zeta. intros Hs Ha.
  destruct (spawnSubAgent_new_store params w Hs Ha)
    as (s & a & n & E & Hid & Ht & Hst & _ & Hn & Hact & Hat & Hty).
  cbv zeta in E. rewrite E. cbn [fst snd store].
  assert (A : active_sessions_of (SpawnSubAgentParams.taskId params)
                (set_sessions (s :: sessions (store w)) n
                   (post_activity (spawned_params params) (store w))) = [s]).
  { unfold active_sessions_of, sessions_of in *. cbn [sessions set_sessions filter].
    rewrite Ht, String.eqb_refl. cbn [filter]. unfold is_active at 1. rewrite Hst.
    change ("active" =? "active") with true. cbn iota. now rewrite Ha. }
  split; [reflexivity|]. split; [exists s; auto|]. split.
  - unfold activities_of. cbn [activities set_sessions]. rewrite Hact.
    rewrite filter_app, existsb_app. cbn [filter]. rewrite Hat, String.eqb_refl.
    cbn [existsb]. rewrite Hty. apply orb_true_r.
  - intros Hnext F.
    match goal with |- fst (spawnSubAgent next ?x) = _ =>
      destruct (spawnSubAgent_reuses next x s [] F) as (R & _) end.
    + rewrite Hnext. exact A.
    + rewrite R, Hid. reflexivity.
Qed.

Lemma spawnSubAgent_registers_sample :
  let p := {| SpawnSubAgentParams.taskId := "T1";
              SpawnSubAgentParams.sessionId := "subagent-1";
              SpawnSubAgentParams.agentName := "Developer";
              SpawnSubAgentParams.description := None |} in
  let w := Sample.world (Sample.mkStore [Sample.task "T1" "in_progress"] [] [] []) [] in
  fst (spawnSubAgent p w) = Returned {| sr_sessionId := "subagent-1"; reused := false |}
  /\ fst (spawnSubAgent p (snd (spawnSubAgent p w)))
     = Returned {| sr_sessionId := "subagent-1"; reused := true |}.
Proof.
  cbv zeta.
  match goal with |- fst (spawnSubAgent ?p ?x) = _ /\ _ =>
    pose proof (spawnSubAgent_registers p p x) as H end.
  cbv zeta in H. destruct (H eq_refl eq_refl) as (R & _ & _ & N).
  split; [exact R | exact (N eq_refl eq_refl)].
Defined.

(** X15.  When the request that registers the session fails, [spawnSubAgent]
    throws that failure and no session is added; the activity written
    alongside is not held back by it, so with the store serving the feed a
    spawned activity is on record for a session that does not exist. *)
Theorem spawnSubAgent_failed_registration (params : SpawnSubAgentParams.t) (w : World) :
  let taskId := SpawnSubAgentParams.taskId params in
  let w' := snd (spawnSubAgent params w) in
  hd false (faults w) = false ->
  hd false (tl (faults w)) = false ->
  hd false (tl (tl (faults w))) = true ->
  active_sessions_of taskId (store w) = [] ->
  fst (spawnSubAgent params w)
    = Thrown (HttpError POST (subagent_path taskId) 500 "Internal Server Error")
  /\ sessions (store w') = sessions (store w)
  /\ existsb (fun a => Activity.activity_type a =? "spawned")
       (activities_of taskId (store w')) = true.
Proof.
  cbv zeta. intros F1 F2 F3 Ha.
  rewrite (spawnSubAgent_run_new params w F1 Ha). cbv zeta.
  rewrite logActivity_run. cbn [faults answered]. rewrite F2. cbn [snd faults answered].
  rewrite F3. cbn [fst snd store answered]. repeat split.
  unfold activities_of, post_activity, route_post_activity.
  cbn [snd activities set_activities]. rewrite filter_app, existsb_app.
  cbn [filter Activity.task_id spawned_params LogActivityParams.taskId].
  rewrite String.eqb_refl. cbn. apply orb_true_r.
Qed.

Lemma spawnSubAgent_failed_registration_sample :
  let p := {| SpawnSubAgentParams.taskId := "T1";
              SpawnSubAgentParams.sessionId := "subagent-1";
              SpawnSubAgentParams.agentName := "Developer";
              SpawnSubAgentParams.description := None |} in
  let w := Sample.world (Sample.mkStore [Sample.task "T1" "in_progress"] [] [] [])
             [false; false; true] in
  fst (spawnSubAgent p w)
    = Thrown (HttpError POST "/api/tasks/T1/subagent" 500 "Internal Server Error")
  /\ sessions (store (snd (spawnSubAgent p w))) = [].
Proof.
  cbv zeta.
  match goal with |- fst (spawnSubAgent ?p ?x) = _ /\ _ =>
    pose proof (spawnSubAgent_failed_registration p x) as H end.
  cbv zeta in H. destruct (H eq_refl eq_refl eq_refl eq_refl) as (R & S & _).
  split; [exact R | exact S].
Defined.

(** ** More on the end-state checklist *)

Lemma getDeliverables_effect (taskId : string) (w : World) :
  fst (getDeliverables taskId w)
    = Returned (if hd false (faults w) then [] else deliverables_of taskId (store w))
  /\ store (snd (getDeliverables taskId w)) = store w
  /\ faults (snd (getDeliverables taskId w)) = tl (faults w)
  /\ requests (snd (getDeliverables taskId w))
     = requests w ++ [{| req_method := GET; req_path := deliverables_path taskId;
                         req_body := None |}].
Proof.
  rewrite getDeliverables_run. cbv zeta. destruct (hd false (faults w)); repeat split.
Qed.

Lemma endStateCheck_fields (taskId : string) (w w' : World) (r : EndStateReport) :
  endStateCheck taskId w = (Returned r, w') ->
  exists t,
    find_task taskId (store w) = Some t
    /\ store w' = store w
    /\ (exists sent, requests w' = requests w ++ sent
                     /\ forallb is_read sent = true /\ length sent = 4)
    /\ deliverablesRegistered r
       = (if hd false (faults w) then false
          else (0 <? length (deliverables_of taskId (store w)))%nat)
    /\ sessionsCompleted r = (length (active_sessions_of taskId (store w)) =? 0)%nat
    /\ completionActivityLogged r = existsb is_completion (activities_of taskId (store w))
    /\ statusIsReview r = (Task.status t =? "review")
    /\ ready r = deliverablesRegistered r && sessionsCompleted r
                 && completionActivityLogged r
                 && (statusIsReview r || (Task.status t =? "done"))
    /\ (ready r = true <-> issues r = [])
    /\ (statusIsReview r || (Task.status t =? "done") = false ->
        In ("Task status is '" ++ Task.status t ++ "', expected 'review'")%string
           (issues r)).
Proof.
  unfold endStateCheck, bind.
  destruct (getDeliverables_effect taskId w) as (G & Sa & _ & Sb).
  destruct (getDeliverables taskId w) as [o wa]. cbn [fst snd] in G, Sa, Sb. subst o.
  set (ds := if hd false (faults w) then [] else deliverables_of taskId (store w)).
  rewrite apiGet_run. cbv zeta.
  destruct (hd false (faults wa)); [discriminate|]. unfold route_get_subagent.
  rewrite apiGet_run. cbv zeta.
  match goal with |- context [hd false (faults ?x)] =>
    destruct (hd false (faults x)); [discriminate|] end.
  unfold route_get_activities.
  rewrite apiGet_run. cbv zeta.
  match goal with |- context [hd false (faults ?x)] =>
    destruct (hd false (faults x)); [discriminate|] end.
  unfold route_get_task. cbn [store answered]. rewrite Sa.
  destruct (find_task taskId (store w)) as [t|]; [|discriminate].
  intros [= <- <-]. exists t.
  cbn [ready issues deliverablesRegistered sessionsCompleted completionActivityLogged
       statusIsReview store requests answered].
  split; [reflexivity|]. split; [first [exact Sa | reflexivity]|]. split.
  { eexists. rewrite Sb, <- !app_assoc. split; [reflexivity|]. split; reflexivity. }
  split; [subst ds; now destruct (hd false (faults w))|].
  do 4 (split; [reflexivity|]).
  change (filter is_active (sessions_of taskId (store w)))
    with (active_sessions_of taskId (store w)).
  change (existsb (fun a => Activity.activity_type a =? "completed"))
    with (existsb is_completion).
  destruct (0 <? length ds)%nat,
           (length (active_sessions_of taskId (store w)) =? 0)%nat,
           (existsb is_completion (activities_of taskId (store w))),
           (Task.status t =? "review"), (Task.status t =? "done");
    cbn; (split; [split; intros H; first [reflexivity | discriminate H] | ]);
    intros H; first [discriminate H | auto 10].
Qed.

(** X16.  [endStateCheck] is an audit, not an action: when it returns, the
    store is as before and it has sent four requests, all GETs; and the
    report is consistent, [ready] being true exactly when the list of
    issues is empty. *)
Theorem endStateCheck_audit (taskId : string) (w w' : World) (r : EndStateReport) :
  endStateCheck taskId w = (Returned r, w') ->
  store w' = store w
  /\ (exists sent, requests w' = requests w ++ sent
                   /\ forallb is_read sent = true /\ length sent = 4)
  /\ (ready r = true <-> issues r = []).
Proof.
  intros H. destruct (endStateCheck_fields _ _ _ _ H)
    as (t & _ & S & Q & _ & _ & _ & _ & _ & I & _).
  repeat split; try assumption; apply I.
Qed.

Lemma endStateCheck_audit_sample :
  let w := Sample.world
             (Sample.mkStore [Sample.task "T1" "review"]
                [Sample.session "s1" "T1" "completed"] [Sample.completion "T1"]
                [Sample.deliverable "T1" "/home/chip/projects/T1/report.md"]) [] in
  store (snd (endStateCheck "T1" w)) = store w.
Proof.
  cbv zeta.
  match goal with |- store (snd (endStateCheck ?i ?x)) = _ =>
    destruct (endStateCheck_audit i x (snd (endStateCheck i x))
                (match fst (endStateCheck i x) with
                 | Returned r => r
                 | Thrown _ => {| allDeliverablesExist := false;
                                  deliverablesRegistered := false;
                                  sessionsCompleted := false;
                                  completionActivityLogged := false;
                                  statusIsReview := false; ready := false;
                                  issues := [] |}
                 end) eq_refl) as (S & _)
  end.
  exact S.
Defined.

(** X17.  Before review the checklist cannot pass: for a task whose status is
    neither review nor done, every report has [ready] false and lists the
    status among its issues, whatever has been delivered, completed and
    logged.  A caller that moves the task to review only once the report
    is ready never moves it. *)
Theorem endStateCheck_not_ready_before_review (taskId : string) (w w' : World)
    (r : EndStateReport) (t : Task.t) :
  endStateCheck taskId w = (Returned r, w') ->
  find_task taskId (store w) = Some t ->
  Task.status t <> "review" ->
  Task.status t <> "done" ->
  ready r = false
  /\ In ("Task status is '" ++ Task.status t ++ "', expected 'review'")%string (issues r).
Proof.
  intros H Ht Hr Hd. destruct (endStateCheck_fields _ _ _ _ H)
    as (t0 & Ht0 & _ & _ & _ & _ & _ & Sr & R & _ & I).
  rewrite Ht in Ht0. injection Ht0 as <-.
  assert (E : statusIsReview r || (Task.status t =? "done") = false).
  { rewrite Sr. apply orb_false_iff. split; now apply String.eqb_neq. }
  split; [|exact (I E)]. rewrite R, E. apply andb_false_r.
Qed.

Lemma endStateCheck_not_ready_before_review_sample :
  let w := Sample.world
             (Sample.mkStore [Sample.task "T1" "in_progress"]
                [Sample.session "s1" "T1" "completed"] [Sample.completion "T1"]
                [Sample.deliverable "T1" "/home/chip/projects/T1/report.md"]) [] in
  option_map ready (returned (fst (endStateCheck "T1" w))) = Some false.
Proof.
  cbv zeta.
  match goal with |- option_map ready (returned (fst (endStateCheck ?i ?x))) = _ =>
    destruct (endStateCheck_not_ready_before_review i x (snd (endStateCheck i x))
                (match fst (endStateCheck i x) with
                 | Returned r => r
                 | Thrown _ => {| allDeliverablesExist := false;
                                  deliverablesRegistered := false;
                                  sessionsCompleted := false;
                                  completionActivityLogged := false;
                                  statusIsReview := false; ready := false;
                                  issues := [] |}
                 end)
                (Sample.task "T1" "in_progress") eq_refl eq_refl) as (R & _)
  end.
  - discriminate.
  - discriminate.
  - exact (f_equal Some R).
Defined.

(** ** More on completing a sub-agent *)

Lemma served_reliable (n : nat) (w : World) : reliable w -> served n w = true.
Proof. unfold reliable, served. intros ->. now rewrite firstn_nil. Qed.

Lemma register_all_quiet (env : Env) (taskId : string) (items : list DeliverableItem.t)
    (w : World) :
  let r := Promise_all (map (fun d => logDeliverable env (item_params taskId d)) items) w in
  tasks (store (snd r)) = tasks (store w)
  /\ (reliable w -> reliable (snd r)).
Proof.
  cbv zeta. revert w. induction items as [|d items IH]; intros w.
  - cbn. auto.
  - cbn [map Promise_all].
    destruct (logDeliverable_effect env (item_params taskId d) w) as (R & S & F & _).
    destruct (logDeliverable env (item_params taskId d) w) as [o w1].
    cbn [fst snd] in R, S, F. subst o.
    destruct (IH w1) as (T' & Q'). rewrite T', S. split.
    + now destruct (hd false (faults w)).
    + intros Hq. apply Q'. unfold reliable in *. now rewrite F, Hq.
Qed.

(** A completion against a store that does not fail, for a session that
    exists. *)
Lemma completeSubAgent_quiet (env : Env) (params : CompleteSubAgentParams.t)
    (w : World) :
  let taskId := CompleteSubAgentParams.taskId params in
  let sessionId := CompleteSubAgentParams.sessionId params in
  let w' := snd (completeSubAgent env params w) in
  reliable w ->
  existsb (names_session sessionId) (sessions (store w)) = true ->
  fst (completeSubAgent env params w) = Returned tt
  /\ reliable w'
  /\ tasks (store w') = tasks (store w)
  /\ sessions (store w')
     = map (fun s => if names_session sessionId s
                     then Session.finish "completed" (now w) s else s)
           (sessions (store w))
  /\ (exists a, activities (store w') = activities (store w) ++ [a]
                /\ Activity.task_id a = taskId /\ is_completion a = true)
  /\ map deliverable_content (deliverables (store w'))
     = map deliverable_content (deliverables (store w))
         ++ map (item_content taskId) (supplied params).
Proof.
  cbv zeta. intros Hq Hex. rewrite completeSubAgent_run. cbv zeta.
  rewrite logActivity_run. unfold reliable in Hq. rewrite Hq. cbn [hd snd].
  unfold apiPatch. rewrite api_run. cbv zeta. cbn [faults answered]. rewrite Hq.
  cbn [hd tl]. unfold route_patch_session. cbn [store answered].
  change (sessions (post_activity (completion_params params) (store w)))
    with (sessions (store w)).
  rewrite Hex. cbn [fst snd].
  match goal with |- context [Promise_all _ ?x] => set (w2 := x) end.
  assert (Q2 : reliable w2)
    by (unfold reliable; subst w2; cbn [faults answered]; now rewrite Hq).
  destruct (register_all env (CompleteSubAgentParams.taskId params) (supplied params) w2)
    as (_ & S3 & A3 & _ & D3).
  destruct (register_all_quiet env (CompleteSubAgentParams.taskId params)
              (supplied params) w2) as (T3 & Q3).
  cbv zeta in S3, A3, D3, T3, Q3.
  split; [reflexivity|]. split; [exact (Q3 Q2)|]. split; [rewrite T3; reflexivity|].
  split; [rewrite S3; reflexivity|]. split.
  - rewrite A3. eexists. split; [reflexivity|]. split; reflexivity.
  - rewrite (D3 (served_reliable _ _ Q2)). reflexivity.
Qed.

(** X18.  The three legs of [completeSubAgent] do not wait for one another.
    When the request that completes the session is the one that fails
    (the store answers it with a 500, or the session does not exist), the
    call throws, the sessions are as before, and yet, the store serving
    the other requests, a completed activity has been logged and every
    supplied deliverable registered. *)
Theorem completeSubAgent_failed_completion (env : Env)
    (params : CompleteSubAgentParams.t) (w : World) :
  let taskId := CompleteSubAgentParams.taskId params in
  let sessionId := CompleteSubAgentParams.sessionId params in
  let w' := snd (completeSubAgent env params w) in
  faults w = [false; true]
  \/ (reliable w /\ existsb (names_session sessionId) (sessions (store w)) = false) ->
  (exists status text,
     fst (completeSubAgent env params w)
     = Thrown (HttpError PATCH (session_path sessionId) status text))
  /\ sessions (store w') = sessions (store w)
  /\ existsb is_completion (activities_of taskId (store w')) = true
  /\ map deliverable_content (deliverables (store w'))
     = map deliverable_content (deliverables (store w))
         ++ map (item_content taskId) (supplied params).
Proof.
  cbv zeta. intros H. rewrite completeSubAgent_run. cbv zeta.
  rewrite logActivity_run.
  assert (F1 : hd false (faults w) = false)
    by (destruct H as [-> | [-> _]]; reflexivity).
  assert (Rest : tl (tl (faults w)) = [])
    by (destruct H as [-> | [-> _]]; reflexivity).
  assert (Fail : hd false (tl (faults w)) = false ->
                 existsb (names_session (CompleteSubAgentParams.sessionId params))
                   (sessions (store w)) = false)
    by (destruct H as [-> | [_ Hn]]; [discriminate | intros _; exact Hn]).
  rewrite F1. cbn [snd]. unfold apiPatch. rewrite api_run. cbv zeta.
  cbn [faults store answered]. unfold route_patch_session.
  change (sessions (post_activity (completion_params params) (store w)))
    with (sessions (store w)).
  destruct (hd false (tl (faults w))); [|rewrite (Fail eq_refl)]; cbn [fst snd].
  all: match goal with |- context [Promise_all _ ?x] => set (w2 := x) end.
  all: assert (Q2 : reliable w2)
         by (unfold reliable; subst w2; cbn [faults answered]; exact Rest).
  all: destruct (register_all env (CompleteSubAgentParams.taskId params)
                   (supplied params) w2) as (_ & S3 & A3 & _ & D3).
  all: cbv zeta in S3, A3, D3.
  all: split; [eauto|]; split; [rewrite S3; reflexivity|]; split;
    [|rewrite (D3 (served_reliable _ _ Q2)); reflexivity].
  all: unfold activities_of; rewrite A3; subst w2;
    cbn [store answered post_activity route_post_activity snd set_activities activities];
    rewrite filter_app, existsb_app;
    cbn [filter completion_params LogActivityParams.taskId Activity.task_id];
    rewrite String.eqb_refl; cbn; apply orb_true_r.
Qed.

Lemma completeSubAgent_failed_completion_sample :
  let params := {| CompleteSubAgentParams.taskId := "T1";
                   CompleteSubAgentParams.sessionId := "no-such-session";
                   CompleteSubAgentParams.agentName := "Developer";
                   CompleteSubAgentParams.summary := "done";
                   CompleteSubAgentParams.deliverables := None |} in
  let w := Sample.world
             (Sample.mkStore [Sample.task "T1" "in_progress"]
                [Sample.session "subagent-1" "T1" "active"] [] []) [] in
  sessions (store (snd (completeSubAgent Sample.env params w))) = sessions (store w)
  /\ existsb is_completion
       (activities_of "T1" (store (snd (completeSubAgent Sample.env params w)))) = true.
Proof.
  cbv zeta.
  match goal with |- sessions (store (snd (completeSubAgent ?e ?p ?x))) = _ /\ _ =>
    pose proof (completeSubAgent_failed_completion e p x) as H end.
  cbv zeta in H. destruct H as (_ & S & A & _).
  - right. split; reflexivity.
  - split; [exact S | exact A].
Defined.

(** ** The calls in sequence *)

Lemma new_session_is_the_active_one (taskId : string) (s : Session.t) (n : nat)
    (st st0 : Store) :
  Session.task_id s = taskId ->
  Session.status s = "active" ->
  active_sessions_of taskId st = [] ->
  sessions st0 = sessions st ->
  active_sessions_of taskId (set_sessions (s :: sessions st) n st0) = [s].
Proof.
  intros Ht Hst Ha _. unfold active_sessions_of, sessions_of in *.
  cbn [sessions set_sessions filter].
  rewrite Ht, String.eqb_refl. cbn [filter]. unfold is_active at 1. rewrite Hst.
  change ("active" =? "active") with true. cbn iota. now rewrite Ha.
Qed.

(** X19.  A session's life, the store not failing: a task without an active
    session spawns one, completing it leaves the task without an active
    session again, and the next spawn is not a reuse but registers the new
    caller's session. *)
Theorem spawn_complete_spawn (env : Env) (first next : SpawnSubAgentParams.t)
    (done : CompleteSubAgentParams.t) (w : World) :
  let taskId := SpawnSubAgentParams.taskId first in
  let w1 := snd (spawnSubAgent first w) in
  let w2 := snd (completeSubAgent env done w1) in
  reliable w ->
  active_sessions_of taskId (store w) = [] ->
  CompleteSubAgentParams.taskId done = taskId ->
  CompleteSubAgentParams.sessionId done = SpawnSubAgentParams.sessionId first ->
  SpawnSubAgentParams.taskId next = taskId ->
  fst (spawnSubAgent first w)
    = Returned {| sr_sessionId := SpawnSubAgentParams.sessionId first; reused := false |}
  /\ fst (completeSubAgent env done w1) = Returned tt
  /\ active_sessions_of taskId (store w2) = []
  /\ fst (spawnSubAgent next w2)
     = Returned {| sr_sessionId := SpawnSubAgentParams.sessionId next; reused := false |}.
Proof.
  cbv zeta. intros Hq Ha Hdt Hds Hnt.
  destruct (spawnSubAgent_new_store first w (served_reliable 3 w Hq) Ha)
    as (s & a & n & E & Hid & Ht & Hst & _ & _ & _).
  cbv zeta in E. rewrite E. cbn [fst snd].
  match goal with |- context [completeSubAgent env done ?x] => set (w1 := x) end.
  assert (Q1 : reliable w1)
    by (unfold reliable in *; subst w1; cbn [faults]; now rewrite Hq).
  assert (A1 : active_sessions_of (SpawnSubAgentParams.taskId first) (store w1) = [s])
    by (subst w1; cbn [store]; now apply new_session_is_the_active_one).
  assert (N : names_session (CompleteSubAgentParams.sessionId done) s = true)
    by (unfold names_session; rewrite Hid, Hds; apply String.eqb_refl).
  assert (X1 : existsb (names_session (CompleteSubAgentParams.sessionId done))
                 (sessions (store w1)) = true)
    by (subst w1; cbn [store sessions set_sessions existsb]; now rewrite N).
  destruct (completeSubAgent_quiet env done w1 Q1 X1) as (R2 & Q2 & _ & S2 & _).
  cbv zeta in R2, Q2, S2.
  destruct (finished_sessions (CompleteSubAgentParams.sessionId done) (now w1)
              (sessions (store w1))) as (_ & _ & K3).
  cbv zeta in K3.
  assert (A2 : active_sessions_of (SpawnSubAgentParams.taskId first)
                 (store (snd (completeSubAgent env done w1))) = []).
  { unfold active_sessions_of, sessions_of in *. rewrite S2. apply K3.
    rewrite A1. cbn [forallb]. now rewrite N. }
  split; [reflexivity|]. split; [exact R2|]. split; [exact A2|].
  rewrite <- Hnt in A2.
  destruct (spawnSubAgent_new_store next _ (served_reliable 3 _ Q2) A2)
    as (s' & a' & n' & E' & _).
  cbv zeta in E'. now rewrite E'.
Qed.

Lemma spawn_complete_spawn_sample :
  let first := {| SpawnSubAgentParams.taskId := "T1";
                  SpawnSubAgentParams.sessionId := "subagent-1";
                  SpawnSubAgentParams.agentName := "Developer";
                  SpawnSubAgentParams.description := None |} in
  let next := {| SpawnSubAgentParams.taskId := "T1";
                 SpawnSubAgentParams.sessionId := "subagent-2";
                 SpawnSubAgentParams.agentName := "Writer";
                 SpawnSubAgentParams.description := None |} in
  let done := {| CompleteSubAgentParams.taskId := "T1";
                 CompleteSubAgentParams.sessionId := "subagent-1";
                 CompleteSubAgentParams.agentName := "Developer";
                 CompleteSubAgentParams.summary := "built";
                 CompleteSubAgentParams.deliverables := None |} in
  let w := Sample.world (Sample.mkStore [Sample.task "T1" "in_progress"] [] [] []) [] in
  fst (spawnSubAgent next
         (snd (completeSubAgent Sample.env done (snd (spawnSubAgent first w)))))
  = Returned {| sr_sessionId := "subagent-2"; reused := false |}.
Proof.
  cbv zeta.
  match goal with
  | |- fst (spawnSubAgent ?n (snd (completeSubAgent ?e ?d (snd (spawnSubAgent ?f ?x)))))
       = _ =>
      pose proof (spawn_complete_spawn e f n d x) as H
  end.
  cbv zeta in H.
  exact (proj2 (proj2 (proj2 (H eq_refl eq_refl eq_refl eq_refl eq_refl)))).
Defined.

Lemma supplied_are_registered (taskId : string) (l l' : list Deliverable.t)
    (items : list DeliverableItem.t) :
  map deliverable_content l'
  = map deliverable_content l ++ map (item_content taskId) items ->
  items <> [] ->
  filter (fun d => Deliverable.task_id d =? taskId) l' <> [].
Proof.
  intros E Hi. destruct items as [|i items]; [now elim Hi|].
  assert (I : In (item_content taskId i) (map deliverable_content l')).
  { rewrite E. apply in_or_app. right. now left. }
  apply in_map_iff in I as (d & Hd & Hin).
  assert (T : Deliverable.task_id d = taskId).
  { unfold deliverable_content, item_content in Hd. now injection Hd. }
  intros F.
  assert (In d (filter (fun d => Deliverable.task_id d =? taskId) l')).
  { apply filter_In. split; [exact Hin|]. rewrite T. apply String.eqb_refl. }
  rewrite F in H. exact H.
Qed.

Lemma moveToReview_run (taskId : string) (w : World) (t : Task.t) :
  reliable w ->
  deliverables_of taskId (store w) <> [] ->
  find_task taskId (store w) = Some t ->
  (0 <= indexOf STATUS_ORDER (Task.status t) < indexOf STATUS_ORDER "review")%Z ->
  exists w',
    moveToReview taskId w = (Returned (Task.with_status "review" t), w')
    /\ reliable w'
    /\ find_task taskId (store w') = Some (Task.with_status "review" t)
    /\ sessions (store w') = sessions (store w)
    /\ activities (store w') = activities (store w)
    /\ deliverables (store w') = deliverables (store w).
Proof.
  intros Hq Hd Ht Hi. unfold moveToReview, bind. rewrite getDeliverables_run.
  cbv zeta. unfold reliable in Hq. rewrite Hq. cbn [hd].
  destruct (deliverables_of taskId (store w)) as [|d ds]; [now elim Hd|].
  cbn [length Nat.eqb].
  rewrite (transitionStatus_run_forward taskId "review" None _ t);
    [| unfold served; cbn [faults answered]; now rewrite Hq
     | exact Ht
     | now apply isValidTransition_later
     | discriminate].
  eexists. split; [reflexivity|]. split.
  - unfold reliable. cbn [faults answered]. now rewrite Hq.
  - split; [|repeat split].
    unfold find_task, set_tasks. cbn [store answered tasks].
    now apply find_status_updated.
Qed.

(** X20.  The documented end of a task, the store not failing: the task is at
    a status before review, the session being completed exists and is the
    task's only active one, and at least one deliverable is supplied.  Then
    [completeSubAgent] succeeds, [moveToReview] after it succeeds, and the
    [endStateCheck] after that reports ready, with no issues. *)
Theorem completed_work_passes_review (env : Env) (params : CompleteSubAgentParams.t)
    (w : World) (t : Task.t) :
  let taskId := CompleteSubAgentParams.taskId params in
  let sessionId := CompleteSubAgentParams.sessionId params in
  let w1 := snd (completeSubAgent env params w) in
  let w2 := snd (moveToReview taskId w1) in
  reliable w ->
  find_task taskId (store w) = Some t ->
  (0 <= indexOf STATUS_ORDER (Task.status t) < indexOf STATUS_ORDER "review")%Z ->
  existsb (names_session sessionId) (sessions (store w)) = true ->
  forallb (names_session sessionId) (active_sessions_of taskId (store w)) = true ->
  supplied params <> [] ->
  fst (completeSubAgent env params w) = Returned tt
  /\ fst (moveToReview taskId w1) = Returned (Task.with_status "review" t)
  /\ exists r, fst (endStateCheck taskId w2) = Returned r
               /\ ready r = true /\ issues r = [].
Proof.
  cbv zeta. intros Hq Ht Hi Hex Hall Hsup.
  destruct (completeSubAgent_quiet env params w Hq Hex)
    as (R1 & Q1 & T1 & S1 & (a & A1 & Hat & Hac) & D1).
  cbv zeta in R1, Q1, T1, S1, A1, D1.
  set (w1 := snd (completeSubAgent env params w)) in *.
  assert (Ht1 : find_task (CompleteSubAgentParams.taskId params) (store w1) = Some t)
    by (unfold find_task in *; now rewrite T1).
  assert (Hd1 : deliverables_of (CompleteSubAgentParams.taskId params) (store w1) <> [])
    by (unfold deliverables_of; eapply supplied_are_registered; eassumption).
  destruct (moveToReview_run _ w1 t Q1 Hd1 Ht1 Hi) as (w2 & E2 & Q2 & Ht2 & S2 & A2 & D2).
  rewrite E2. cbn [fst snd].
  split; [exact R1|]. split; [reflexivity|].
  destruct (endStateCheck_returns _ w2 _ Ht2 (served_reliable 4 w2 Q2)) as (r & Hr).
  exists r. split; [exact Hr|].
  destruct (endStateCheck (CompleteSubAgentParams.taskId params) w2) as [o w3] eqn:E3.
  cbn [fst] in Hr. subst o.
  destruct (endStateCheck_fields _ _ _ _ E3)
    as (t0 & Ht0 & _ & _ & DR & SC & CA & SR & RD & IS & _).
  rewrite Ht2 in Ht0. injection Ht0 as <-.
  assert (R : ready r = true).
  { rewrite RD, DR, SC, CA, SR. unfold reliable in Q2. rewrite Q2. cbn [hd].
    assert (B1 : (0 <? length (deliverables_of (CompleteSubAgentParams.taskId params)
                                 (store w2)))%nat = true).
    { unfold deliverables_of in *. rewrite D2.
      destruct (filter _ (deliverables (store w1))); [now elim Hd1 | reflexivity]. }
    assert (B2 : active_sessions_of (CompleteSubAgentParams.taskId params) (store w2) = []).
    { destruct (finished_sessions (CompleteSubAgentParams.sessionId params) (now w)
                  (sessions (store w))) as (_ & _ & K3).
      cbv zeta in K3. unfold active_sessions_of, sessions_of in *.
      rewrite S2, S1. now apply K3. }
    assert (B3 : existsb is_completion
                   (activities_of (CompleteSubAgentParams.taskId params) (store w2)) = true).
    { unfold activities_of. rewrite A2, A1, filter_app, existsb_app.
      cbn [filter]. rewrite Hat, String.eqb_refl. cbn [existsb]. rewrite Hac.
      apply orb_true_r. }
    rewrite B1, B2, B3. reflexivity. }
  split; [exact R | now apply IS].
Qed.

Lemma completed_work_passes_review_sample :
  let params := {| CompleteSubAgentParams.taskId := "T1";
                   CompleteSubAgentParams.sessionId := "subagent-1";
                   CompleteSubAgentParams.agentName := "Developer";
                   CompleteSubAgentParams.summary := "Feature built and tested";
                   CompleteSubAgentParams.deliverables :=
                     Some [{| DeliverableItem.type := "file";
                              DeliverableItem.title := "Component";
                              DeliverableItem.path :=
                                Some "/home/chip/projects/T1/Component.tsx";
                              DeliverableItem.description := None |}] |} in
  let w := Sample.world
             (Sample.mkStore [Sample.task "T1" "in_progress"]
                [Sample.session "subagent-1" "T1" "active"] [] []) [] in
  exists r,
    fst (endStateCheck "T1"
           (snd (moveToReview "T1" (snd (completeSubAgent Sample.env params w)))))
    = Returned r
    /\ ready r = true.
Proof.
  cbv zeta.
  match goal with
  | |- exists r, fst (endStateCheck _ (snd (moveToReview _ (snd (completeSubAgent ?e ?p ?x)))))
                 = _ /\ _ =>
      pose proof (completed_work_passes_review e p x (Sample.task "T1" "in_progress")) as H
  end.
  cbv zeta in H.
  destruct H as (_ & _ & r & Hr & R & _); try reflexivity.
  - cbn. lia.
  - discriminate.
  - exists r. split; assumption.
Defined.

(** ** The legacy calls and manual recovery *)



(** X22.  [completeSubAgentSession] is the session leg of [completeSubAgent]
    alone: with its request served and the session existing, every session
    of that name is marked completed with the time of the call, and the
    feed and the deliverables are as before (no completed activity is
    logged).  When the session does not exist it throws the 404 and
    changes nothing. *)
Theorem completeSubAgentSession_only_session (sessionId : string) (w : World) :
  let w' := snd (completeSubAgentSession sessionId w) in
  hd false (faults w) = false ->
  activities (store w') = activities (store w)
  /\ deliverables (store w') = deliverables (store w)
  /\ (existsb (names_session sessionId) (sessions (store w)) = true ->
      fst (completeSubAgentSession sessionId w) = Returned tt
      /\ sessions (store w')
         = map (fun s => if names_session sessionId s
                         then Session.finish "completed" (now w) s else s)
               (sessions (store w)))
  /\ (existsb (names_session sessionId) (sessions (store w)) = false ->
      fst (completeSubAgentSession sessionId w)
        = Thrown (HttpError PATCH (session_path sessionId) 404 "Session not found")
      /\ store w' = store w).
Proof.
  cbv zeta. intros F.
  unfold completeSubAgentSession, bind, toISOString, apiPatch.
  rewrite api_run. cbv zeta. rewrite F. unfold route_patch_session.
  destruct (existsb (names_session sessionId) (sessions (store w)));
    cbn [fst snd ret store answered]; repeat split; discriminate.
Qed.

Lemma completeSubAgentSession_only_session_sample :
  let w := Sample.world
             (Sample.mkStore [Sample.task "T1" "in_progress"]
                [Sample.session "subagent-1" "T1" "active"] [] []) [] in
  fst (completeSubAgentSession "subagent-1" w) = Returned tt
  /\ activities (store (snd (completeSubAgentSession "subagent-1" w))) = [].
Proof.
  cbv zeta.
  match goal with |- fst (completeSubAgentSession ?i ?x) = _ /\ _ =>
    pose proof (completeSubAgentSession_only_session i x) as H end.
  cbv zeta in H. destruct (H eq_refl) as (A & _ & S & _).
  split; [exact (proj1 (S eq_refl)) | exact A].
Defined.

Lemma deleted_sessions (sessionId taskId : string) (l : list Session.t) :
  let l' := filter (fun s => negb (names_session sessionId s)) l in
  existsb (names_session sessionId) l' = false
  /\ (forallb (names_session sessionId)
        (filter is_active (filter (fun s => Session.task_id s =? taskId) l)) = true ->
      filter is_active (filter (fun s => Session.task_id s =? taskId) l') = []).
Proof.
  cbv zeta. split.
  - induction l as [|x l IH]; cbn [filter existsb]; [reflexivity|].
    destruct (names_session sessionId x) eqn:E; cbn [negb existsb];
      [exact IH | now rewrite E].
  - induction l as [|x l IH]; cbn [filter]; [reflexivity|].
    destruct (names_session sessionId x) eqn:E; cbn [negb filter].
    + destruct (Session.task_id x =? taskId); cbn [filter]; [|exact IH].
      destruct (is_active x); cbn [forallb]; [rewrite E|]; auto.
    + destruct (Session.task_id x =? taskId); cbn [filter]; [|exact IH].
      destruct (is_active x); cbn [forallb]; [rewrite E; discriminate | exact IH].
Qed.

(** X23.  Manual recovery works.  With the store not failing and the task's
    active sessions all being the stuck one, [deleteStuckSession] removes
    every session of that name, the task is left without an active
    session, and the next [spawnSubAgent] for the task registers the
    caller's session instead of reusing the stuck one.  Deleting a session
    that does not exist throws the 404 and changes nothing. *)
Theorem deleteStuckSession_frees_task (sessionId : string)
    (next : SpawnSubAgentParams.t) (w : World) :
  let taskId := SpawnSubAgentParams.taskId next in
  let w' := snd (deleteStuckSession sessionId w) in
  reliable w ->
  (existsb (names_session sessionId) (sessions (store w)) = true ->
   forallb (names_session sessionId) (active_sessions_of taskId (store w)) = true ->
   fst (deleteStuckSession sessionId w) = Returned tt
   /\ existsb (names_session sessionId) (sessions (store w')) = false
   /\ active_sessions_of taskId (store w') = []
   /\ fst (spawnSubAgent next w')
      = Returned {| sr_sessionId := SpawnSubAgentParams.sessionId next;
                    reused := false |})
  /\ (existsb (names_session sessionId) (sessions (store w)) = false ->
      fst (deleteStuckSession sessionId w)
        = Thrown (HttpError DELETE (session_path sessionId) 404 "Session not found")
      /\ store w' = store w).
Proof.
  cbv zeta. intros Hq.
  unfold deleteStuckSession, apiDelete. rewrite api_run. cbv zeta.
  unfold reliable in Hq. rewrite Hq. cbn [hd]. unfold route_delete_session. split.
  - intros Hex Hall. rewrite Hex. cbn [fst snd store answered].
    destruct (deleted_sessions sessionId (SpawnSubAgentParams.taskId next)
                (sessions (store w))) as [D1 D2].
    cbv zeta in D1, D2.
    assert (A : active_sessions_of (SpawnSubAgentParams.taskId next)
                  (set_sessions
                     (filter (fun s => negb (names_session sessionId s))
                             (sessions (store w)))
                     (next_id (store w)) (store w)) = [])
      by (unfold active_sessions_of, sessions_of in *; now apply D2).
    split; [reflexivity|]. split; [exact D1|]. split; [exact A|].
    match goal with |- fst (spawnSubAgent next ?x) = _ =>
      destruct (spawnSubAgent_new_store next x) as (s & a & n & E & _) end.
    + apply served_reliable. unfold reliable. cbn [faults answered]. now rewrite Hq.
    + exact A.
    + cbv zeta in E. now rewrite E.
  - intros Hn. rewrite Hn. split; reflexivity.
Qed.

Lemma deleteStuckSession_frees_task_sample :
  let next := {| SpawnSubAgentParams.taskId := "T1";
                 SpawnSubAgentParams.sessionId := "subagent-2";
                 SpawnSubAgentParams.agentName := "Developer";
                 SpawnSubAgentParams.description := None |} in
  let w := Sample.world
             (Sample.mkStore [Sample.task "T1" "in_progress"]
                [Sample.session "subagent-1" "T1" "active"] [] []) [] in
  fst (spawnSubAgent next (snd (deleteStuckSession "subagent-1" w)))
  = Returned {| sr_sessionId := "subagent-2"; reused := false |}.
Proof.
  cbv zeta.
  match goal with |- fst (spawnSubAgent ?n (snd (deleteStuckSession ?i ?x))) = _ =>
    pose proof (deleteStuckSession_frees_task i n x) as H end.
  cbv zeta in H. destruct (H eq_refl) as [H1 _].
  exact (proj2 (proj2 (proj2 (H1 eq_refl eq_refl)))).
Defined.

(** ** Repeating a call *)

(** X24.  [completeSubAgent] is not idempotent.  Called twice with the same
    parameters, the store not failing and the session existing, both calls
    succeed, and every supplied deliverable is then registered twice and
    two completed activities are in the feed. *)
Theorem completeSubAgent_twice (env : Env) (params : CompleteSubAgentParams.t)
    (w : World) :
  let taskId := CompleteSubAgentParams.taskId params in
  let w1 := snd (completeSubAgent env params w) in
  let w2 := snd (completeSubAgent env params w1) in
  reliable w ->
  existsb (names_session (CompleteSubAgentParams.sessionId params))
    (sessions (store w)) = true ->
  fst (completeSubAgent env params w) = Returned tt
  /\ fst (completeSubAgent env params w1) = Returned tt
  /\ map deliverable_content (deliverables (store w2))
     = map deliverable_content (deliverables (store w))
         ++ map (item_content taskId) (supplied params)
         ++ map (item_content taskId) (supplied params)
  /\ length (filter is_completion (activities_of taskId (store w2)))
     = 2 + length (filter is_completion (activities_of taskId (store w))).
Proof.
  cbv zeta. intros Hq Hex.
  destruct (completeSubAgent_quiet env params w Hq Hex)
    as (R1 & Q1 & _ & S1 & (a1 & A1 & T1 & C1) & D1).
  cbv zeta in R1, Q1, S1, A1, D1.
  set (w1 := snd (completeSubAgent env params w)) in *.
  assert (Hex1 : existsb (names_session (CompleteSubAgentParams.sessionId params))
                   (sessions (store w1)) = true).
  { rewrite S1.
    destruct (finished_sessions (CompleteSubAgentParams.sessionId params) (now w)
                (sessions (store w))) as (K1 & _).
    now apply K1. }
  destruct (completeSubAgent_quiet env params w1 Q1 Hex1)
    as (R2 & _ & _ & _ & (a2 & A2 & T2 & C2) & D2).
  cbv zeta in R2, A2, D2.
  split; [exact R1|]. split; [exact R2|]. split.
  - rewrite D2, D1, <- app_assoc. reflexivity.
  - unfold activities_of. rewrite A2, A1, !filter_app. cbn [filter].
    rewrite T1, T2, String.eqb_refl. cbn [filter]. rewrite C1, C2.
    rewrite !length_app. cbn [length]. lia.
Qed.

Lemma completeSubAgent_twice_sample :
  let params := {| CompleteSubAgentParams.taskId := "T1";
                   CompleteSubAgentParams.sessionId := "subagent-1";
                   CompleteSubAgentParams.agentName := "Developer";
                   CompleteSubAgentParams.summary := "built";
                   CompleteSubAgentParams.deliverables :=
                     Some [{| DeliverableItem.type := "url";
                              DeliverableItem.title := "Preview";
                              DeliverableItem.path := Some "https://example.org/preview";
                              DeliverableItem.description := None |}] |} in
  let w := Sample.world
             (Sample.mkStore [Sample.task "T1" "in_progress"]
                [Sample.session "subagent-1" "T1" "active"] [] []) [] in
  length (deliverables
            (store (snd (completeSubAgent Sample.env params
                           (snd (completeSubAgent Sample.env params w)))))) = 2.
Proof.
  cbv zeta.
  match goal with |- context [completeSubAgent ?e ?p (snd (completeSubAgent ?e ?p ?x))] =>
    pose proof (completeSubAgent_twice e p x) as H end.
  cbv zeta in H. destruct (H eq_refl eq_refl) as (_ & _ & D & _).
  rewrite <- (length_map deliverable_content), D. reflexivity.
Defined.

(** X25.  [logDeliverable] registers what it is given.  With the request
    served, the deliverable added carries the task, type, title,
    description and path exactly as supplied: the path is neither expanded
    nor moved under the root.  For a deliverable that is not of type file,
    or has no path, no warning is written whatever the path. *)
Theorem logDeliverable_registers_as_given (env : Env) (params : LogDeliverableParams.t)
    (w : World) :
  let w' := snd (logDeliverable env params w) in
  (hd false (faults w) = false ->
   exists d,
     deliverables (store w') = deliverables (store w) ++ [d]
     /\ deliverable_content d
        = (LogDeliverableParams.taskId params,
           LogDeliverableParams.deliverableType params,
           LogDeliverableParams.title params,
           LogDeliverableParams.path params,
           LogDeliverableParams.description params))
  /\ (LogDeliverableParams.deliverableType params <> "file"
      \/ truthy (LogDeliverableParams.path params) = false ->
      hd false (faults w) = false ->
      console w' = console w).
Proof.
  cbv zeta. split.
  - intros F. destruct (logDeliverable_effect env params w) as (_ & S & _).
    rewrite S, F. eexists. split; reflexivity.
  - intros H F. unfold logDeliverable, bind, try_catch, apiPost.
    assert (E : truthy (LogDeliverableParams.path params)
                && (LogDeliverableParams.deliverableType params =? "file") = false).
    { destruct H as [H|H]; [|now rewrite H].
      apply String.eqb_neq in H. rewrite H. apply andb_false_r. }
    rewrite E. cbn [ret]. rewrite api_run. cbv zeta. rewrite F. reflexivity.
Qed.

Lemma logDeliverable_registers_as_given_sample :
  let params := {| LogDeliverableParams.taskId := "T1";
                   LogDeliverableParams.deliverableType := "file";
                   LogDeliverableParams.title := "Notes";
                   LogDeliverableParams.path := Some "~/projects/T1/notes.md";
                   LogDeliverableParams.description := None |} in
  let w := Sample.world (Sample.mkStore [Sample.task "T1" "in_progress"] [] [] []) [] in
  map Deliverable.path (deliverables (store (snd (logDeliverable Sample.env params w))))
  = [Some "~/projects/T1/notes.md"].
Proof.
  cbv zeta.
  match goal with |- context [logDeliverable ?e ?p ?x] =>
    pose proof (logDeliverable_registers_as_given e p x) as H end.
  cbv zeta in H. destruct H as [H _]. destruct (H eq_refl) as (d & D & C).
  rewrite D. cbn [map app deliverables store Sample.world Sample.mkStore].
  unfold deliverable_content in C. now injection C as _ _ _ -> _.
Defined.

(** X26.  [moveToReview] is not repeatable.  For a task with a deliverable
    that is already in review, or done, it throws the invalid-transition
    error naming the task's status and review, and sends no status update;
    unlike [startWork], it has no quiet path for a task that is already
    where it should be. *)
Theorem moveToReview_not_repeatable (taskId : string) (w : World) (t : Task.t) :
  served 2 w = true ->
  deliverables_of taskId (store w) <> [] ->
  find_task taskId (store w) = Some t ->
  (indexOf STATUS_ORDER "review" <= indexOf STATUS_ORDER (Task.status t))%Z ->
  fst (moveToReview taskId w) = Thrown (InvalidTransition (Task.status t) "review")
  /\ store (snd (moveToReview taskId w)) = store w
  /\ existsb updates_status (requests (snd (moveToReview taskId w)))
     = existsb updates_status (requests w).
Proof.
  intros Hs Hd Ht Hi. apply served_next in Hs as [F1 Hs].
  unfold moveToReview, bind. rewrite getDeliverables_run. cbv zeta. rewrite F1.
  destruct (deliverables_of taskId (store w)) as [|d ds]; [now elim Hd|].
  cbn [length Nat.eqb].
  unfold transitionStatus, bind. rewrite apiGet_run. cbv zeta.
  match goal with |- context [hd false (faults ?x)] =>
    match x with answered w ?st ?q => specialize (Hs st q) end;
    apply served_next in Hs as [F2 _]; rewrite F2 end.
  unfold route_get_task. cbn [store answered]. rewrite Ht.
  rewrite (isValidTransition_not_later _ _ Hi). cbn [negb throw fst snd store answered].
  repeat split. cbn [requests answered]. rewrite !existsb_app. cbn.
  now rewrite !orb_false_r.
Qed.

Lemma moveToReview_not_repeatable_sample :
  let w := Sample.world
             (Sample.mkStore [Sample.task "T1" "review"] [] []
                [Sample.deliverable "T1" "/home/chip/projects/T1/report.md"]) [] in
  fst (moveToReview "T1" w) = Thrown (InvalidTransition "review" "review").
Proof.
  cbv zeta.
  match goal with |- fst (moveToReview ?i ?x) = _ =>
    destruct (moveToReview_not_repeatable i x (Sample.task "T1" "review")) as (R & _) end.
  - reflexivity.
  - discriminate.
  - reflexivity.
  - cbn. lia.
  - exact R.
Defined.

(** ** Callers that interleave *)

(** [spawnSubAgent] is the read of the session list followed by
    [spawnSubAgent_resume] on what was read. *)
Lemma spawnSubAgent_split (params : SpawnSubAgentParams.t) :
  spawnSubAgent params
  = (existing <- apiGet (subagent_path (SpawnSubAgentParams.taskId params))
                   (route_get_subagent (SpawnSubAgentParams.taskId params)) ;;
     spawnSubAgent_resume params existing).
Proof. reflexivity. Qed.

